(** * Bedrock image manipulation: request construction and response decoding

    A shallow embedding of [src/index.ts] (class [BedrockImageManipulation],
    method [generateImage]) together with the properties of its request
    payload, its error paths and its response decoding.

    JavaScript values are modelled by the inductive type [value]; numbers
    are IEEE binary64 floats, as in the language.  The method runs in a small
    state-and-exception monad whose state is the trace of what the method did
    to the outside world (clients constructed, commands sent).  What the host
    platform supplies (the client constructor and the remote service of the
    SDK, [JSON.parse], [TextDecoder], number printing) is collected in the
    record [Host].  Strings are sequences of 8-bit characters. *)

From Stdlib Require Import String Ascii List Bool NArith Lia.
From Stdlib Require Import Strings.Byte.
From Stdlib Require Import Floats.PrimFloat.
From Stdlib Require Import Numbers.DecimalString.
From Stdlib Require Import PeanoNat.
Import ListNotations.
Open Scope string_scope.
Open Scope list_scope.

Set Warnings "-register-all".

(** ** JavaScript values *)

Definition number := float.

Inductive value : Type :=
| VUndefined
| VNull
| VBool (b : bool)
| VNum (n : number)
| VStr (s : string)
| VArr (elems : list value)
| VObj (props : list (string * value)).

(** Objects keep their properties in insertion order. *)
Definition object := list (string * value).

(** ToBoolean. *)
Definition truthy (v : value) : bool :=
  match v with
  | VUndefined | VNull => false
  | VBool b => b
  | VNum n => negb (is_zero n || is_nan n)
  | VStr s => negb (String.eqb s "")
  | VArr _ | VObj _ => true
  end.

(** [a && b] and [a || b]. *)
Definition js_and (a b : value) : value := if truthy a then b else a.
Definition js_or (a b : value) : value := if truthy a then a else b.

(** An optional field of a typed record read as a value: a missing field
    reads as [undefined]. *)
Definition of_opt {A} (inj : A -> value) (o : option A) : value :=
  match o with Some a => inj a | None => VUndefined end.

(** Destructuring with a default, [{ x = d } = o]: the default applies
    exactly when the field is [undefined]. *)
Definition with_default {A} (d : A) (o : option A) : A :=
  match o with Some a => a | None => d end.

Fixpoint assoc {A} (k : string) (ps : list (string * A)) : option A :=
  match ps with
  | [] => None
  | (k', v) :: rest => if String.eqb k k' then Some v else assoc k rest
  end.

Definition has_key {A} (k : string) (ps : list (string * A)) : bool :=
  match assoc k ps with Some _ => true | None => false end.

(** [o.k = v]: overwrite in place, or add as the last property. *)
Fixpoint set_prop (k : string) (v : value) (o : object) : object :=
  match o with
  | [] => [(k, v)]
  | (k', v') :: rest =>
      if String.eqb k k' then (k, v) :: rest else (k', v') :: set_prop k v rest
  end.

Definition index_key (i : nat) : string :=
  NilZero.string_of_uint (Nat.to_uint i).

Fixpoint indexed {A} (i : nat) (l : list A) : list (string * A) :=
  match l with
  | [] => []
  | x :: rest => (index_key i, x) :: indexed (S i) rest
  end.

Fixpoint chars (s : string) : list value :=
  match s with
  | EmptyString => []
  | String c rest => VStr (String c EmptyString) :: chars rest
  end.

(** The own enumerable properties an object spread [...v] copies.  The
    method only ever spreads an object literal or a falsy primitive, which
    has none. *)
Definition spread (v : value) : object :=
  match v with
  | VObj ps => ps
  | VArr l => indexed 0 l
  | VStr s => indexed 0 (chars s)
  | _ => []
  end.

(** ** JSON text, as its syntax tree *)

Inductive json : Type :=
| JNull
| JBool (b : bool)
| JNum (n : number)
| JStr (s : string)
| JArr (elems : list json)
| JObj (members : list (string * json)).

Definition json_of_number (n : number) : json :=
  if is_finite n then JNum n else JNull.

(** [JSON.stringify]: [undefined] has no JSON form; a property whose value
    is [undefined] is left out of its object, an [undefined] array element
    is written [null], and so is a number that is not finite. *)
Fixpoint JSON_stringify (v : value) : option json :=
  match v with
  | VUndefined => None
  | VNull => Some JNull
  | VBool b => Some (JBool b)
  | VNum n => Some (json_of_number n)
  | VStr s => Some (JStr s)
  | VArr l =>
      Some (JArr (map (fun e => match JSON_stringify e with
                                | Some j => j
                                | None => JNull
                                end) l))
  | VObj ps =>
      Some (JObj (flat_map (fun p => match JSON_stringify (snd p) with
                                     | Some j => [(fst p, j)]
                                     | None => []
                                     end) ps))
  end.

(** The members an object is written with. *)
Definition json_members (o : object) : list (string * json) :=
  flat_map (fun p => match JSON_stringify (snd p) with
                     | Some j => [(fst p, j)]
                     | None => []
                     end) o.

(** ** The input of [generateImage] *)

Record ImageConfig : Type := {
  width : option number;
  height : option number;
  quality : option string;
  cfgScale : option number;
  seed : option number;
  numberOfImages : option number
}.

Definition emptyImageConfig : ImageConfig :=
  {| width := None; height := None; quality := None;
     cfgScale := None; seed := None; numberOfImages := None |}.

(** [taskType] is a string at run time: the declared union is erased, and
    the method has a [default] branch for every other string. *)
Record ImageGenerationInput : Type := {
  prompt : option string;
  modelId : option string;
  region : option string;
  taskType : string;
  imageConfig : option ImageConfig;
  base64Image : option string;
  maskImage : option string;
  maskPrompt : option string;
  negativePrompt : option string;
  outPaintingMode : option string;
  conditionImage : option string;
  controlMode : option string;
  controlStrength : option number;
  colorHexList : option (list string)
}.

(** ** Exceptions *)

(** What a [throw] carries: an [Error] instance, of which the method only
    ever reads [message], or any other value. *)
Inductive thrown : Type :=
| TError (message : string)
| TValue (v : value).

Inductive outcome (A : Type) : Type :=
| Return (a : A)
| Throw (t : thrown).
Arguments Return {A} a.
Arguments Throw {A} t.

(** Sequencing of steps that may throw. *)
Definition and_then {A B} (o : outcome A) (k : A -> outcome B) : outcome B :=
  match o with
  | Return a => k a
  | Throw t => Throw t
  end.

Notation "x <~ o ;; k" := (and_then o (fun x => k))
  (at level 61, o at next level, right associativity).

(** ** Building the request body (lines 92-173) *)

Definition str (o : option string) : value := of_opt VStr o.
Definition num (o : option number) : value := of_opt VNum o.

Definition InvalidTask (taskType : string) : thrown :=
  TError ("Unsupported taskType: " ++ taskType)%string.

Definition imageGenerationConfig (options : ImageGenerationInput) : object :=
  let imageConfig := with_default emptyImageConfig (imageConfig options) in
  let width := with_default 1024%float (width imageConfig) in
  let height := with_default 1024%float (height imageConfig) in
  let quality := with_default "premium" (quality imageConfig) in
  let cfgScale := with_default 8%float (cfgScale imageConfig) in
  let seed := seed imageConfig in
  let numberOfImages := with_default 1%float (numberOfImages imageConfig) in
  [("numberOfImages", VNum numberOfImages);
   ("quality", VStr quality);
   ("cfgScale", VNum cfgScale)]
  ++ spread (match seed with
             | Some s => VObj [("seed", VNum s)]
             | None => VBool false
             end)
  ++ spread (js_and (VNum width) (VObj [("width", VNum width)]))
  ++ spread (js_and (VNum height) (VObj [("height", VNum height)])).

Definition buildRequestBody (options : ImageGenerationInput) : outcome object :=
  let requestBody : object :=
    [("taskType", VStr (taskType options));
     ("imageGenerationConfig", VObj (imageGenerationConfig options))] in
  let text := str (prompt options) in
  let negativeText := str (negativePrompt options) in
  let image := str (base64Image options) in
  if String.eqb (taskType options) "TEXT_IMAGE" then
    Return (set_prop "textToImageParams"
      (VObj ([("text", text); ("negativeText", negativeText)]
             ++ spread (js_and (str (conditionImage options))
                  (VObj [("conditionImage", str (conditionImage options));
                         ("controlMode", str (controlMode options));
                         ("controlStrength", num (controlStrength options))]))))
      requestBody)
  else if String.eqb (taskType options) "INPAINTING" then
    Return (set_prop "inPaintingParams"
      (VObj [("image", image);
             ("maskImage", str (maskImage options));
             ("maskPrompt", str (maskPrompt options));
             ("text", text);
             ("negativeText", negativeText)])
      requestBody)
  else if String.eqb (taskType options) "OUTPAINTING" then
    Return (set_prop "outPaintingParams"
      (VObj [("image", image);
             ("maskImage", str (maskImage options));
             ("maskPrompt", str (maskPrompt options));
             ("text", text);
             ("negativeText", negativeText);
             ("outPaintingMode",
              js_or (str (outPaintingMode options)) (VStr "DEFAULT"))])
      requestBody)
  else if String.eqb (taskType options) "BACKGROUND_REMOVAL" then
    Return (set_prop "backgroundRemovalParams"
      (VObj [("image", image)])
      requestBody)
  else if String.eqb (taskType options) "COLOR_GUIDED_GENERATION" then
    Return (set_prop "colorGuidedGenerationParams"
      (VObj [("text", text);
             ("negativeText", negativeText);
             ("referenceImage", image);
             ("colors", of_opt (fun l => VArr (map VStr l)) (colorHexList options))])
      requestBody)
  else Throw (InvalidTask (taskType options)).

(** ** Base64, as [Buffer] reads and writes it

    [Buffer.from(s, 'base64')], which the method applies to the image it
    received, and [buf.toString('base64')], which the driver script applies
    to the files it reads, belong to the Node.js runtime.  Encoding is
    RFC 4648 with padding.  Decoding is the
    lenient one of the runtime: it also accepts the URL-safe letters [-] and
    [_], skips every character outside the alphabet, and stops at the first
    [=]; a trailing group of two or three letters gives one or two bytes.
    The decoder is given here on strings of 8-bit characters, which is what
    an encoding is made of; of a wider character the runtime reads the low
    byte. *)

Definition base64_alphabet : string :=
  "ABCDEFGHIJKLMNOPQRSTUVWXYZabcdefghijklmnopqrstuvwxyz0123456789+/".

Definition base64_char (n : N) : ascii :=
  match String.get (N.to_nat n) base64_alphabet with
  | Some c => c
  | None => "="%char
  end.

Definition unbase64 (c : ascii) : option N :=
  let n := N_of_ascii c in
  if N.leb 65 n && N.leb n 90 then Some (n - 65)%N
  else if N.leb 97 n && N.leb n 122 then Some (n - 71)%N
  else if N.leb 48 n && N.leb n 57 then Some (n + 4)%N
  else if N.eqb n 43 || N.eqb n 45 then Some 62%N
  else if N.eqb n 47 || N.eqb n 95 then Some 63%N
  else None.

(** Storing into a [Uint8Array] keeps the low eight bits. *)
Definition byte_of_N (n : N) : byte :=
  match Byte.of_N (n mod 256) with
  | Some b => b
  | None => x00
  end.

Definition encode_group3 (a b c : N) : string :=
  String (base64_char (N.shiftr a 2))
    (String (base64_char (N.lor (N.shiftl (N.land a 3) 4) (N.shiftr b 4)))
       (String (base64_char (N.lor (N.shiftl (N.land b 15) 2) (N.shiftr c 6)))
          (String (base64_char (N.land c 63)) ""))).

Fixpoint base64_encode (bs : list byte) : string :=
  match bs with
  | [] => ""
  | [a] =>
      let a := Byte.to_N a in
      String (base64_char (N.shiftr a 2))
        (String (base64_char (N.shiftl (N.land a 3) 4)) "==")
  | [a; b] =>
      let a := Byte.to_N a in
      let b := Byte.to_N b in
      String (base64_char (N.shiftr a 2))
        (String (base64_char (N.lor (N.shiftl (N.land a 3) 4) (N.shiftr b 4)))
           (String (base64_char (N.shiftl (N.land b 15) 2)) "="))
  | a :: b :: c :: rest =>
      (encode_group3 (Byte.to_N a) (Byte.to_N b) (Byte.to_N c)
         ++ base64_encode rest)%string
  end.

(** The six-bit values of the letters read, up to the first [=]. *)
Fixpoint sextets (s : string) : list N :=
  match s with
  | EmptyString => []
  | String c rest =>
      if Ascii.eqb c "="%char then []
      else match unbase64 c with
           | Some v => v :: sextets rest
           | None => sextets rest
           end
  end.

Definition decode_byte1 (h0 h1 : N) : byte :=
  byte_of_N (N.lor (N.shiftl (N.land h0 63) 2) (N.shiftr (N.land h1 48) 4)).
Definition decode_byte2 (h1 h2 : N) : byte :=
  byte_of_N (N.lor (N.shiftl (N.land h1 15) 4) (N.shiftr (N.land h2 60) 2)).
Definition decode_byte3 (h2 h3 : N) : byte :=
  byte_of_N (N.lor (N.shiftl (N.land h2 3) 6) (N.land h3 63)).

Fixpoint bytes_of_sextets (l : list N) : list byte :=
  match l with
  | h0 :: h1 :: h2 :: h3 :: rest =>
      decode_byte1 h0 h1 :: decode_byte2 h1 h2 :: decode_byte3 h2 h3
        :: bytes_of_sextets rest
  | [h0; h1; h2] => [decode_byte1 h0 h1; decode_byte2 h1 h2]
  | [h0; h1] => [decode_byte1 h0 h1]
  | _ => []
  end.

Definition base64_decode (s : string) : list byte :=
  bytes_of_sextets (sextets s).

(** ** The outside world *)

Record BedrockRuntimeClient : Type := { config_region : string }.

Module InvokeModelCommand.
Record t : Type := {
  modelId : string;
  body : option json;
  contentType : string;
  accept : string
}.
End InvokeModelCommand.

(** [response.body] is a byte array when present; any byte array, even an
    empty one, is truthy. *)
Record InvokeModelResponse : Type := { response_body : option (list byte) }.

Module ImageGenerationResult.
Record t : Type := {
  imageBytes : list byte;
  base64Image : value;
  modelId : string
}.
End ImageGenerationResult.

Inductive event : Type :=
| NewClient (region : string)
| Sent (client : BedrockRuntimeClient) (command : InvokeModelCommand.t).

Definition world := list event.

Definition sent_commands (w : world) : list InvokeModelCommand.t :=
  flat_map (fun e => match e with Sent _ c => [c] | NewClient _ => [] end) w.

(** What the method takes from its platform: the error, if any, with which
    the constructor of the SDK's client refuses a region (it refuses an
    empty one), the answer of the remote service to a command, the UTF-8
    decoder, the JSON parser, the printing of numbers, and [Buffer.from] on
    an argument that is not a string. *)
Record Host : Type := {
  client_refused : string -> option thrown;
  remote : BedrockRuntimeClient -> InvokeModelCommand.t -> outcome InvokeModelResponse;
  TextDecoder_decode : list byte -> string;
  JSON_parse : string -> outcome value;
  Number_toString : number -> string;
  Buffer_from_other : value -> outcome (list byte)
}.

(** ** The monad of the method: a trace of effects, and exceptions *)

Definition M (A : Type) : Type := world -> outcome A * world.

Definition ret {A} (a : A) : M A := fun w => (Return a, w).
Definition throw {A} (t : thrown) : M A := fun w => (Throw t, w).
Definition lift {A} (o : outcome A) : M A := fun w => (o, w).

Definition bind {A B} (m : M A) (k : A -> M B) : M B :=
  fun w =>
    match m w with
    | (Return a, w') => k a w'
    | (Throw t, w') => (Throw t, w')
    end.

Definition try_catch {A} (m : M A) (handler : thrown -> M A) : M A :=
  fun w =>
    match m w with
    | (Return a, w') => (Return a, w')
    | (Throw t, w') => handler t w'
    end.

Notation "x <- m ;; k" := (bind m (fun x => k))
  (at level 61, m at next level, right associativity).

(** ** Property reads *)

Definition TypeError_read (what key : string) : thrown :=
  TError ("Cannot read properties of " ++ what ++ " (reading '" ++ key ++ "')")%string.

(** [v.k] for a name [k] that is not an index, is not [length], and that no
    built-in prototype defines; [error] and [images] are such names. *)
Definition get_named (v : value) (k : string) : outcome value :=
  match v with
  | VUndefined => Throw (TypeError_read "undefined" k)
  | VNull => Throw (TypeError_read "null" k)
  | VObj ps => Return (with_default VUndefined (assoc k ps))
  | _ => Return VUndefined
  end.

(** [v[i]] for an index [i]. *)
Definition get_index (v : value) (i : nat) : outcome value :=
  match v with
  | VUndefined => Throw (TypeError_read "undefined" (index_key i))
  | VNull => Throw (TypeError_read "null" (index_key i))
  | VArr l => Return (nth i l VUndefined)
  | VStr s =>
      Return (match String.get i s with
              | Some c => VStr (String c "")
              | None => VUndefined
              end)
  | VObj ps => Return (with_default VUndefined (assoc (index_key i) ps))
  | _ => Return VUndefined
  end.

Fixpoint join (sep : string) (l : list string) : string :=
  match l with
  | [] => ""
  | [s] => s
  | s :: rest => (s ++ sep ++ join sep rest)%string
  end.

(** ** The class [BedrockImageManipulation] *)

Record BedrockImageManipulation : Type := {
  this_bedrock : BedrockRuntimeClient;
  this_region : string
}.

(** [o || d] for an optional string [o]: the empty string is falsy too. *)
Definition or_else (o : option string) (d : string) : string :=
  match o with
  | Some s => if String.eqb s "" then d else s
  | None => d
  end.

Definition TypeError_primitive : thrown :=
  TError "Cannot convert object to primitive value".

(** Steps taken one after the other, up to the first that throws. *)
Fixpoint in_turn {A} (steps : list (outcome A)) : outcome (list A) :=
  match steps with
  | [] => Return []
  | step :: rest =>
      a <~ step ;;
      others <~ in_turn rest ;;
      Return (a :: others)
  end.

Section Method.

Context (host : Host).

(** [new BedrockRuntimeClient({ region })] *)
Definition new_BedrockRuntimeClient (region : string) : M BedrockRuntimeClient :=
  fun w =>
    match client_refused host region with
    | Some t => (Throw t, w)
    | None => (Return {| config_region := region |}, w ++ [NewClient region])
    end.

(** [constructor(options: { region?: string } = {})] *)
Definition new_BedrockImageManipulation (region : option string)
  : M BedrockImageManipulation :=
  let region := or_else region "us-east-1" in
  bedrock <- new_BedrockRuntimeClient region ;;
  ret {| this_bedrock := bedrock; this_region := region |}.

(** ToString, for template literals and [String(v)].  An object is
    converted by its [toString]: the inherited one gives the text
    [[object Object]], but a member of that name takes its place, and no
    member of a value of this type can be called, so the conversion throws.
    An array joins the string forms of its elements, the first that throws
    ending it. *)
Fixpoint ToString (v : value) : outcome string :=
  match v with
  | VUndefined => Return "undefined"
  | VNull => Return "null"
  | VBool true => Return "true"
  | VBool false => Return "false"
  | VNum n => Return (Number_toString host n)
  | VStr s => Return s
  | VArr l =>
      parts <~ in_turn (map (fun e => match e with
                                      | VUndefined | VNull => Return ""
                                      | _ => ToString e
                                      end) l) ;;
      Return (join "," parts)
  | VObj props =>
      if has_key "toString" props then Throw TypeError_primitive
      else Return "[object Object]"
  end.

(** [error instanceof Error ? error.message : String(error)] *)
Definition message_of (error : thrown) : outcome string :=
  match error with
  | TError message => Return message
  | TValue v => ToString v
  end.

(** The errors of the method, by the messages it gives them. *)
Definition NoResponseBody : thrown :=
  TError "No response body received from model".
Definition RemoteError (error : string) : thrown :=
  TError ("Model error: " ++ error)%string.
Definition EmptyResult : thrown :=
  TError "No image returned from model".
Definition GenerationFailed (message : string) : thrown :=
  TError ("Image generation failed: " ++ message)%string.

(** [client.send(command)] *)
Definition send (client : BedrockRuntimeClient) (command : InvokeModelCommand.t)
  : M InvokeModelResponse :=
  fun w => (remote host client command, w ++ [Sent client command]).

(** [Buffer.from(v, 'base64')] *)
Definition Buffer_from_base64 (v : value) : outcome (list byte) :=
  match v with
  | VStr s => Return (base64_decode s)
  | _ => Buffer_from_other host v
  end.

(** What the [try] block does with the response (lines 185-206). *)
Definition decodeResponse (response : InvokeModelResponse) (modelId : string)
  : outcome ImageGenerationResult.t :=
  match response_body response with
  | None => Throw NoResponseBody
  | Some body =>
      responseBody <~ JSON_parse host (TextDecoder_decode host body) ;;
      error <~ get_named responseBody "error" ;;
      if truthy error
      then text <~ ToString error ;; Throw (RemoteError text)
      else
        images <~ get_named responseBody "images" ;;
        if negb (truthy images) then Throw EmptyResult
        else
          first <~ get_index images 0 ;;
          if negb (truthy first) then Throw EmptyResult
          else
            let base64Image := first in
            imageBytes <~ Buffer_from_base64 base64Image ;;
            Return {| ImageGenerationResult.imageBytes := imageBytes;
                      ImageGenerationResult.base64Image := base64Image;
                      ImageGenerationResult.modelId := modelId |}
  end.

(** The body of the [try] block (lines 183-206). *)
Definition invokeAndDecode (client : BedrockRuntimeClient)
    (command : InvokeModelCommand.t) (modelId : string)
  : M ImageGenerationResult.t :=
  response <- send client command ;;
  lift (decodeResponse response modelId).

(** The command built at lines 175-180. *)
Definition buildCommand (modelId : string) (requestBody : object)
  : InvokeModelCommand.t :=
  {| InvokeModelCommand.modelId := modelId;
     InvokeModelCommand.body := JSON_stringify (VObj requestBody);
     InvokeModelCommand.contentType := "application/json";
     InvokeModelCommand.accept := "application/json" |}.

(** [generateImage(options)] *)
Definition generateImage (this : BedrockImageManipulation)
    (options : ImageGenerationInput) : M ImageGenerationResult.t :=
  let modelId := with_default "amazon.nova-canvas-v1:0" (modelId options) in
  let region := with_default (this_region this) (region options) in
  client <- (if String.eqb region (this_region this)
             then ret (this_bedrock this)
             else new_BedrockRuntimeClient region) ;;
  requestBody <- lift (buildRequestBody options) ;;
  let command := buildCommand modelId requestBody in
  try_catch (invokeAndDecode client command modelId)
            (fun error =>
               message <- lift (message_of error) ;;
               throw (GenerationFailed message)).

End Method.

(** The JSON payload of a request: the body of the command that is sent. *)
Definition payload (options : ImageGenerationInput) : option json :=
  match buildRequestBody options with
  | Return requestBody => JSON_stringify (VObj requestBody)
  | Throw _ => None
  end.

(** The five task kinds the method has a case for. *)
Definition taskTypes : list string :=
  ["TEXT_IMAGE"; "INPAINTING"; "OUTPAINTING"; "BACKGROUND_REMOVAL";
   "COLOR_GUIDED_GENERATION"].

Definition recognized (taskType : string) : bool :=
  existsb (String.eqb taskType) taskTypes.

(** A member of a JSON object, if the tree is an object that has it. *)
Definition member (k : string) (j : json) : option json :=
  match j with
  | JObj ms => assoc k ms
  | _ => None
  end.

(** ** A stub platform, for running the method on concrete inputs

    Its client constructor refuses the empty region, as the SDK's does. *)

Definition stub_host (answer : outcome InvokeModelResponse)
    (parsed : outcome value) : Host :=
  {| client_refused := fun region =>
       if String.eqb region "" then Some (TError "Region is missing") else None;
     remote := fun _ _ => answer;
     TextDecoder_decode := fun _ => "";
     JSON_parse := fun _ => parsed;
     Number_toString := fun _ => "0";
     Buffer_from_other := fun _ =>
       Throw (TError "The first argument must be of type string") |}.

Definition default_this : BedrockImageManipulation :=
  {| this_bedrock := {| config_region := "us-east-1" |};
     this_region := "us-east-1" |}.

Definition request (taskType : string) : ImageGenerationInput :=
  {| prompt := None; modelId := None; region := None; taskType := taskType;
     imageConfig := None; base64Image := None; maskImage := None;
     maskPrompt := None; negativePrompt := None; outPaintingMode := None;
     conditionImage := None; controlMode := None; controlStrength := None;
     colorHexList := None |}.

(** ** Notions the statements use *)

(** The model identifier of a request: the caller's, or the default. *)
Definition requestModelId (options : ImageGenerationInput) : string :=
  with_default "amazon.nova-canvas-v1:0" (modelId options).

(** The client a request goes through: the instance's own when the regions
    agree, one constructed for the requested region otherwise, unless the
    constructor refuses it. *)
Definition requestClient (host : Host) (this : BedrockImageManipulation)
    (options : ImageGenerationInput) : outcome BedrockRuntimeClient :=
  let region := with_default (this_region this) (region options) in
  if String.eqb region (this_region this) then Return (this_bedrock this)
  else match client_refused host region with
       | Some t => Throw t
       | None => Return {| config_region := region |}
       end.

(** The events of choosing that client. *)
Definition requestClientEvents (host : Host) (this : BedrockImageManipulation)
    (options : ImageGenerationInput) : world :=
  let region := with_default (this_region this) (region options) in
  if String.eqb region (this_region this) then []
  else match client_refused host region with
       | Some _ => []
       | None => [NewClient region]
       end.

(** The answer of the remote service to the request made for [options]
    through [client]. *)
Definition remote_answer (host : Host) (client : BedrockRuntimeClient)
    (options : ImageGenerationInput) : outcome InvokeModelResponse :=
  requestBody <~ buildRequestBody options ;;
  remote host client (buildCommand (requestModelId options) requestBody).

(** The generation-config block of the payload. *)
Definition generationConfig (options : ImageGenerationInput) : option json :=
  match payload options with
  | Some p => member "imageGenerationConfig" p
  | None => None
  end.

(** The per-task section each task kind is documented to populate. *)
Definition section_of (taskType : string) : string :=
  if String.eqb taskType "TEXT_IMAGE" then "textToImageParams"
  else if String.eqb taskType "INPAINTING" then "inPaintingParams"
  else if String.eqb taskType "OUTPAINTING" then "outPaintingParams"
  else if String.eqb taskType "BACKGROUND_REMOVAL" then "backgroundRemovalParams"
  else if String.eqb taskType "COLOR_GUIDED_GENERATION"
       then "colorGuidedGenerationParams"
  else "".

Definition sections : list string :=
  map section_of taskTypes.

(** The per-task section of the payload. *)
Definition taskSection (options : ImageGenerationInput) : option json :=
  match payload options with
  | Some p => member (section_of (taskType options)) p
  | None => None
  end.

(** What the caller receives when an inner outcome passes the [catch]. *)
Definition surfaced (host : Host) {A} (o : outcome A) : outcome A :=
  match o with
  | Return a => Return a
  | Throw error =>
      message <~ message_of host error ;;
      Throw (GenerationFailed message)
  end.

(** ** The claims that fail, as propositions *)

(** The claim of C1 that fails: a request that leaves width, height and
    seed out has none of the three keys in its generation-config block. *)
Definition omitted_stay_out (options : ImageGenerationInput) : Prop :=
  let c := with_default emptyImageConfig (imageConfig options) in
  width c = None -> height c = None -> seed c = None ->
  forall block, generationConfig options = Some (JObj block) ->
    has_key "width" block = false /\ has_key "height" block = false
    /\ has_key "seed" block = false.

(** ... and its other half: a request that gives all three has all three
    keys in the block. *)
Definition supplied_go_in (options : ImageGenerationInput) : Prop :=
  let c := with_default emptyImageConfig (imageConfig options) in
  forall w h s, width c = Some w -> height c = Some h -> seed c = Some s ->
  forall block, generationConfig options = Some (JObj block) ->
    has_key "width" block = true /\ has_key "height" block = true
    /\ has_key "seed" block = true.

(** The claim of C3: the task section of the payload never has both a mask
    image and a mask prompt.  A request that is rejected has no payload, and
    satisfies it. *)
Definition at_most_one_mask (options : ImageGenerationInput) : Prop :=
  forall params, taskSection options = Some (JObj params) ->
    has_key "maskImage" params && has_key "maskPrompt" params = false.

Definition is_array (v : value) : bool :=
  match v with VArr _ => true | _ => false end.

(** The claim of C6 that fails, in its two parts: a decoded object that has
    an [error] field makes the call fail with the remote error; a decoded
    object whose [images] is not an array makes it fail with the no-image
    error. *)
Definition error_field_fails (host : Host) (this : BedrockImageManipulation)
    (options : ImageGenerationInput) : Prop :=
  forall client body props error,
    requestClient host this options = Return client ->
    remote_answer host client options = Return {| response_body := Some body |} ->
    JSON_parse host (TextDecoder_decode host body) = Return (VObj props) ->
    assoc "error" props = Some error ->
    exists text,
      fst (generateImage host this options [])
      = Throw (GenerationFailed ("Model error: " ++ text)%string).

Definition no_images_array_fails (host : Host) (this : BedrockImageManipulation)
    (options : ImageGenerationInput) : Prop :=
  forall client body props,
    requestClient host this options = Return client ->
    remote_answer host client options = Return {| response_body := Some body |} ->
    JSON_parse host (TextDecoder_decode host body) = Return (VObj props) ->
    assoc "error" props = None ->
    is_array (with_default VUndefined (assoc "images" props)) = false ->
    fst (generateImage host this options [])
    = Throw (GenerationFailed "No image returned from model").


(** The claim of C7: a task kind that is none of the five makes the call
    fail with the unsupported-task error. *)
Definition unrecognized_is_invalid_task (host : Host)
    (this : BedrockImageManipulation) (options : ImageGenerationInput) : Prop :=
  recognized (taskType options) = false ->
  fst (generateImage host this options []) = Throw (InvalidTask (taskType options)).

(** The claim of C9: a decoded object whose [images] starts with the empty
    string makes the call fail with the no-image error. *)
Definition empty_first_image_fails (host : Host)
    (this : BedrockImageManipulation) (options : ImageGenerationInput) : Prop :=
  forall client body props rest,
    requestClient host this options = Return client ->
    remote_answer host client options = Return {| response_body := Some body |} ->
    JSON_parse host (TextDecoder_decode host body) = Return (VObj props) ->
    assoc "images" props = Some (VArr (VStr "" :: rest)) ->
    fst (generateImage host this options [])
    = Throw (GenerationFailed "No image returned from model").

(** ** Sample requests and platforms *)

Definition with_imageConfig (c : ImageConfig) (options : ImageGenerationInput)
  : ImageGenerationInput :=
  {| prompt := prompt options; modelId := modelId options;
     region := region options; taskType := taskType options;
     imageConfig := Some c; base64Image := base64Image options;
     maskImage := maskImage options; maskPrompt := maskPrompt options;
     negativePrompt := negativePrompt options;
     outPaintingMode := outPaintingMode options;
     conditionImage := conditionImage options;
     controlMode := controlMode options;
     controlStrength := controlStrength options;
     colorHexList := colorHexList options |}.

Definition zero_width_config : ImageConfig :=
  {| width := Some 0%float; height := Some 512%float; quality := None;
     cfgScale := None; seed := Some 100%float; numberOfImages := None |}.

Definition full_config : ImageConfig :=
  {| width := Some 512%float; height := Some 768%float; quality := None;
     cfgScale := None; seed := Some 100%float; numberOfImages := None |}.

Definition zero_config : ImageConfig :=
  {| width := Some 0%float; height := Some 0%float; quality := None;
     cfgScale := None; seed := Some 0%float; numberOfImages := None |}.

Definition both_masks (taskType : string) : ImageGenerationInput :=
  {| prompt := Some "A palm tree"; modelId := None; region := None;
     taskType := taskType; imageConfig := None;
     base64Image := Some "aW1hZ2U="; maskImage := Some "bWFzaw==";
     maskPrompt := Some "Tree"; negativePrompt := None;
     outPaintingMode := None; conditionImage := None; controlMode := None;
     controlStrength := None; colorHexList := None |}.

Definition images_host (responseBody : value) : Host :=
  stub_host (Return {| response_body := Some [] |}) (Return responseBody).


(** ** Checking by enumeration *)

(** A property of all numbers below a bound, checked by running through
    them. *)
Fixpoint below (k : nat) (P : N -> bool) : bool :=
  match k with
  | O => true
  | S k' => P (N.of_nat k') && below k' P
  end.

(** ** Further sample requests *)

Definition elsewhere (region : string) (options : ImageGenerationInput)
  : ImageGenerationInput :=
  {| prompt := prompt options; modelId := modelId options;
     region := Some region; taskType := taskType options;
     imageConfig := imageConfig options; base64Image := base64Image options;
     maskImage := maskImage options; maskPrompt := maskPrompt options;
     negativePrompt := negativePrompt options;
     outPaintingMode := outPaintingMode options;
     conditionImage := conditionImage options;
     controlMode := controlMode options;
     controlStrength := controlStrength options;
     colorHexList := colorHexList options |}.

Definition conditioned (conditionImage : option string) : ImageGenerationInput :=
  {| prompt := Some "A cat"; modelId := None; region := None;
     taskType := "TEXT_IMAGE"; imageConfig := None; base64Image := None;
     maskImage := None; maskPrompt := None; negativePrompt := None;
     outPaintingMode := None; conditionImage := conditionImage;
     controlMode := Some "CANNY_EDGE"; controlStrength := Some 1%float;
     colorHexList := None |}.

Definition crowded (taskType : string) : ImageGenerationInput :=
  {| prompt := Some "A cat"; modelId := Some "amazon.titan-image-generator-v2:0";
     region := None; taskType := taskType; imageConfig := None;
     base64Image := Some "aW1hZ2U="; maskImage := Some "bWFzaw==";
     maskPrompt := Some "Tree"; negativePrompt := Some "dog";
     outPaintingMode := Some "PRECISE"; conditionImage := Some "Y29uZA==";
     controlMode := Some "CANNY_EDGE"; controlStrength := Some 1%float;
     colorHexList := Some ["#5e17eb"; "#FF0000"] |}.

(** A member that is there when its value is. *)
Definition opt_member (k : string) (o : option json) : list (string * json) :=
  match o with
  | Some j => [(k, j)]
  | None => []
  end.

Definition zero_count_config : ImageConfig :=
  {| width := None; height := None; quality := Some "standard";
     cfgScale := Some 0%float; seed := None; numberOfImages := Some 0%float |}.

(** ** The driver script ([scripts/run-image-generation.ts])

    The script runs on a machine that has, besides the trace of the
    method, the files written so far and the lines of the console.  What it
    takes from its platform is the directory of the script, [path.join], the
    files found on disk before the run, and the paths that refuse a
    write. *)

Inductive line : Type :=
| Log (text : string)
| LogError (text : string) (error : thrown).

Record machine : Type := {
  net : world;
  written : list (string * list byte);
  console : list line
}.

Record Platform : Type := {
  dirname : string;
  path_join : list (option string) -> outcome string;
  found_on_disk : string -> outcome (list byte);
  write_refused : string -> option thrown
}.

Definition Script (A : Type) : Type := machine -> outcome A * machine.

Definition script_ret {A} (a : A) : Script A := fun s => (Return a, s).
Definition script_lift {A} (o : outcome A) : Script A := fun s => (o, s).

Definition script_bind {A B} (m : Script A) (k : A -> Script B) : Script B :=
  fun s =>
    match m s with
    | (Return a, s') => k a s'
    | (Throw t, s') => (Throw t, s')
    end.

Definition script_catch {A} (m : Script A) (handler : thrown -> Script A)
  : Script A :=
  fun s =>
    match m s with
    | (Return a, s') => (Return a, s')
    | (Throw t, s') => handler t s'
    end.

Notation "x <== m ;; k" := (script_bind m (fun x => k))
  (at level 61, m at next level, right associativity).

(** A step of the method, run on the trace of the machine. *)
Definition on_net {A} (m : M A) : Script A :=
  fun s =>
    let (o, w) := m (net s) in
    (o, {| net := w; written := written s; console := console s |}).

Definition console_log (text : string) : Script unit :=
  fun s =>
    (Return tt,
     {| net := net s; written := written s;
        console := console s ++ [Log text] |}).

Definition console_error (text : string) (error : thrown) : Script unit :=
  fun s =>
    (Return tt,
     {| net := net s; written := written s;
        console := console s ++ [LogError text error] |}).

(** The fields a task may override: a key can be absent, or present with a
    value, which may be [undefined]. *)
Module Overrides.
Record t : Type := {
  prompt : option (option string);
  modelId : option (option string);
  region : option (option string);
  taskType : option (option string);
  imageConfig : option (option ImageConfig);
  base64Image : option (option string);
  maskImage : option (option string);
  maskPrompt : option (option string);
  negativePrompt : option (option string);
  outPaintingMode : option (option string);
  conditionImage : option (option string);
  controlMode : option (option string);
  controlStrength : option (option number);
  colorHexList : option (option (list string))
}.
End Overrides.

Module Task.
Record t : Type := {
  taskType : string;
  inputFiles : list string;
  outputFile : string;
  prompt : option string;
  configOverrides : option Overrides.t
}.
End Task.

(** [task.configOverrides?.maskPrompt] *)
Definition overriding_maskPrompt (task : Task.t) : option string :=
  match Task.configOverrides task with
  | Some overrides => with_default None (Overrides.maskPrompt overrides)
  | None => None
  end.

(** The object literal of the call (lines 116-128): the fields of the
    script, then the overrides spread over them.  A [taskType] overridden
    with [undefined] is read by the method as the text "undefined": it takes
    the [default] branch with that text in the message either way. *)
Definition taskRequest (task : Task.t) (inputImage maskImage : option string)
  : ImageGenerationInput :=
  let imageConfig :=
    {| width := Some 512%float; height := Some 512%float;
       quality := Some "premium"; cfgScale := None; seed := None;
       numberOfImages := None |} in
  match Task.configOverrides task with
  | None =>
      {| prompt := Task.prompt task;
         modelId := Some "amazon.nova-canvas-v1:0";
         region := None;
         taskType := Task.taskType task;
         imageConfig := Some imageConfig;
         base64Image := inputImage;
         maskImage := maskImage;
         maskPrompt := None; negativePrompt := None; outPaintingMode := None;
         conditionImage := None; controlMode := None; controlStrength := None;
         colorHexList := None |}
  | Some overrides =>
      {| prompt := with_default (Task.prompt task) (Overrides.prompt overrides);
         modelId := with_default (Some "amazon.nova-canvas-v1:0")
                      (Overrides.modelId overrides);
         region := with_default None (Overrides.region overrides);
         taskType := match Overrides.taskType overrides with
                     | Some (Some t) => t
                     | Some None => "undefined"
                     | None => Task.taskType task
                     end;
         imageConfig := with_default (Some imageConfig)
                          (Overrides.imageConfig overrides);
         base64Image := with_default inputImage (Overrides.base64Image overrides);
         maskImage := with_default maskImage (Overrides.maskImage overrides);
         maskPrompt := with_default None (Overrides.maskPrompt overrides);
         negativePrompt := with_default None (Overrides.negativePrompt overrides);
         outPaintingMode := with_default None (Overrides.outPaintingMode overrides);
         conditionImage := with_default None (Overrides.conditionImage overrides);
         controlMode := with_default None (Overrides.controlMode overrides);
         controlStrength := with_default None (Overrides.controlStrength overrides);
         colorHexList := with_default None (Overrides.colorHexList overrides) |}
  end.

Section Script.

Context (host : Host) (platform : Platform).

(** [fs.readFileSync(path)]: what the run wrote there last, or else what
    was on disk. *)
Definition readFileSync (path : string) : Script (list byte) :=
  fun s =>
    match assoc path (written s) with
    | Some data => (Return data, s)
    | None => (found_on_disk platform path, s)
    end.

(** [fs.writeFileSync(path, data)] *)
Definition writeFileSync (path : string) (data : list byte) : Script unit :=
  fun s =>
    match write_refused platform path with
    | Some t => (Throw t, s)
    | None =>
        (Return tt,
         {| net := net s; written := (path, data) :: written s;
            console := console s |})
    end.

(** Lines 6-10. *)
Definition readImageAsBase64 (filename : option string) : Script string :=
  imagePath <== script_lift
    (path_join platform
       [Some (dirname platform); Some ".."; Some "images"; filename]) ;;
  imageBuffer <== readFileSync imagePath ;;
  script_ret (base64_encode imageBuffer).

(** Lines 12-16. *)
Definition writeImageFromBase64 (base64Data : value) (outputFilename : string)
  : Script unit :=
  outputPath <== script_lift
    (path_join platform
       [Some (dirname platform); Some ".."; Some "results"; Some outputFilename]) ;;
  buffer <== script_lift (Buffer_from_base64 host base64Data) ;;
  writeFileSync outputPath buffer.

(** Lines 104-128, up to the call: the line on the console, the images
    read, and the request made of them. *)
Definition prepareRequest (index : nat) (task : Task.t)
  : Script ImageGenerationInput :=
  _ <== console_log
    ("Running task " ++ index_key (S index) ++ ": " ++ Task.taskType task)%string ;;
  inputImage <==
    (if truthy (str (nth_error (Task.inputFiles task) 0))
     then image <== readImageAsBase64 (nth_error (Task.inputFiles task) 0) ;;
          script_ret (Some image)
     else script_ret None) ;;
  maskImage <==
    (if (String.eqb (Task.taskType task) "INPAINTING"
         || String.eqb (Task.taskType task) "OUTPAINTING")
        && negb (truthy (str (overriding_maskPrompt task)))
     then image <== readImageAsBase64 (nth_error (Task.inputFiles task) 1) ;;
          script_ret (Some image)
     else script_ret None) ;;
  script_ret (taskRequest task inputImage maskImage).

(** The body of the loop (lines 104-130). *)
Definition runTask (imageManipulator : BedrockImageManipulation)
    (index : nat) (task : Task.t) : Script unit :=
  options <== prepareRequest index task ;;
  generationResult <== on_net (generateImage host imageManipulator options) ;;
  writeImageFromBase64 (ImageGenerationResult.base64Image generationResult)
    (Task.outputFile task).

(** The loop (lines 103-131), from the task at [index] on. *)
Fixpoint runTasks (imageManipulator : BedrockImageManipulation)
    (index : nat) (tasks : list Task.t) : Script unit :=
  match tasks with
  | [] => script_ret tt
  | task :: rest =>
      _ <== runTask imageManipulator index task ;;
      runTasks imageManipulator (S index) rest
  end.

End Script.

Definition no_overrides : Overrides.t :=
  {| Overrides.prompt := None; Overrides.modelId := None;
     Overrides.region := None; Overrides.taskType := None;
     Overrides.imageConfig := None; Overrides.base64Image := None;
     Overrides.maskImage := None; Overrides.maskPrompt := None;
     Overrides.negativePrompt := None; Overrides.outPaintingMode := None;
     Overrides.conditionImage := None; Overrides.controlMode := None;
     Overrides.controlStrength := None; Overrides.colorHexList := None |}.

Definition square_1024 : ImageConfig :=
  {| width := Some 1024%float; height := Some 1024%float; quality := None;
     cfgScale := None; seed := None; numberOfImages := None |}.

(** The overrides the tasks of the script use: a mask prompt, a negative
    prompt, an image configuration, colours and a control strength. *)
Definition overrides_of (maskPrompt negativePrompt : option (option string))
    (imageConfig : option (option ImageConfig))
    (colorHexList : option (option (list string)))
    (controlStrength : option (option number)) : Overrides.t :=
  {| Overrides.prompt := None; Overrides.modelId := None;
     Overrides.region := None; Overrides.taskType := None;
     Overrides.imageConfig := imageConfig; Overrides.base64Image := None;
     Overrides.maskImage := None; Overrides.maskPrompt := maskPrompt;
     Overrides.negativePrompt := negativePrompt;
     Overrides.outPaintingMode := None;
     Overrides.conditionImage := None; Overrides.controlMode := None;
     Overrides.controlStrength := controlStrength;
     Overrides.colorHexList := colorHexList |}.

(** The tasks of the script (lines 29-101). *)
Definition tasks : list Task.t :=
  [ {| Task.taskType := "TEXT_IMAGE"; Task.inputFiles := [];
       Task.outputFile := "result-1.png";
       Task.prompt := Some "A beautiful sunrise over a futuristic cityscape";
       Task.configOverrides := None |};
    {| Task.taskType := "INPAINTING"; Task.inputFiles := ["file-2.png"];
       Task.outputFile := "result-2.png";
       Task.prompt := Some "A palm tree";
       Task.configOverrides :=
         Some (overrides_of (Some (Some "Tree")) (Some (Some "forest"))
                 (Some (Some square_1024)) None None) |};
    {| Task.taskType := "INPAINTING";
       Task.inputFiles := ["file-3.png"; "file-3-mask.png"];
       Task.outputFile := "result-3.png";
       Task.prompt := Some "A bowl of olives";
       Task.configOverrides :=
         Some (overrides_of (Some None) (Some (Some "coffee"))
                 (Some (Some square_1024)) None None) |};
    {| Task.taskType := "OUTPAINTING"; Task.inputFiles := ["file-4.png"];
       Task.outputFile := "result-4.png";
       Task.prompt :=
         Some "A man walking in the middle of a busy New York street with skyscrapers in the background and people around him";
       Task.configOverrides :=
         Some (overrides_of (Some (Some "man")) None
                 (Some (Some square_1024)) None None) |};
    {| Task.taskType := "BACKGROUND_REMOVAL"; Task.inputFiles := ["file-5.png"];
       Task.outputFile := "result-5.png";
       Task.prompt := None;
       Task.configOverrides := None |};
    {| Task.taskType := "COLOR_GUIDED_GENERATION";
       Task.inputFiles := ["file-6.png"];
       Task.outputFile := "result-6.png";
       Task.prompt :=
         Some "A small blonde child smiling at the camera showing their head and shoulders, where they are looking left";
       Task.configOverrides :=
         Some (overrides_of None None
                 (Some (Some {| width := None; height := None; quality := None;
                                cfgScale := None; seed := Some 100%float;
                                numberOfImages := None |}))
                 (Some (Some ["#5e17eb"])) (Some (Some 1%float))) |} ].

(** [run] (lines 18-134) and the call at the end of the script, which
    reports whatever [run] throws. *)
Definition run (host : Host) (platform : Platform) : Script unit :=
  imageManipulator <== on_net (new_BedrockImageManipulation host None) ;;
  _ <== runTasks host platform imageManipulator 0 tasks ;;
  console_log "All tasks complete. Results saved to /results folder.".

Definition main (host : Host) (platform : Platform) : Script unit :=
  script_catch (run host platform)
    (fun error => console_error "Failed to generate image:" error).

(** A platform for sample runs: paths are joined with slashes, the images
    directory holds [files], and no write is refused. *)
Definition sample_platform (files : list (string * list byte)) : Platform :=
  {| dirname := "scripts";
     path_join := fun parts =>
       match parts with
       | [Some d; Some up; Some dir; Some name] =>
           Return (d ++ "/" ++ up ++ "/" ++ dir ++ "/" ++ name)%string
       | _ => Throw (TError "The path argument must be of type string")
       end;
     found_on_disk := fun path =>
       match assoc path files with
       | Some data => Return data
       | None => Throw (TError "ENOENT: no such file or directory")
       end;
     write_refused := fun _ => None |}.

Definition start : machine :=
  {| net := []; written := []; console := [] |}.

Definition sample_files : list (string * list byte) :=
  map (fun name => (("scripts/../images/" ++ name)%string, [x41; x42; x43; x44]))
    ["file-2.png"; "file-3.png"; "file-3-mask.png"; "file-4.png"; "file-5.png";
     "file-6.png"].

Definition nothing_to_do : Task.t :=
  {| Task.taskType := ""; Task.inputFiles := []; Task.outputFile := "";
     Task.prompt := None; Task.configOverrides := None |}.


(** ** Running the method *)

Lemma recognized_cases taskType :
  recognized taskType = true ->
  taskType = "TEXT_IMAGE" \/ taskType = "INPAINTING" \/ taskType = "OUTPAINTING"
  \/ taskType = "BACKGROUND_REMOVAL" \/ taskType = "COLOR_GUIDED_GENERATION".
Proof.
  unfold recognized, taskTypes; simpl.
  repeat rewrite orb_true_iff.
  repeat rewrite String.eqb_eq.
  intuition discriminate.
Qed.

Lemma buildRequestBody_unrecognized options :
  recognized (taskType options) = false ->
  buildRequestBody options = Throw (InvalidTask (taskType options)).
Proof.
  unfold recognized, taskTypes; simpl.
  repeat rewrite orb_false_iff.
  intros (H1 & H2 & H3 & H4 & H5 & _).
  unfold buildRequestBody.
  now rewrite H1, H2, H3, H4, H5.
Qed.

Lemma buildRequestBody_recognized options :
  recognized (taskType options) = true ->
  exists params,
    buildRequestBody options =
      Return [("taskType", VStr (taskType options));
              ("imageGenerationConfig", VObj (imageGenerationConfig options));
              (section_of (taskType options), VObj params)].
Proof.
  intros H. apply recognized_cases in H.
  unfold buildRequestBody.
  destruct H as [H | [H | [H | [H | H]]]]; rewrite H; simpl;
    eexists; reflexivity.
Qed.

Lemma sent_commands_app w1 w2 :
  sent_commands (w1 ++ w2) = sent_commands w1 ++ sent_commands w2.
Proof. apply flat_map_app. Qed.

Lemma sent_commands_client_events host this options :
  sent_commands (requestClientEvents host this options) = [].
Proof.
  unfold requestClientEvents.
  destruct (String.eqb _ _); [reflexivity|].
  destruct (client_refused _ _); reflexivity.
Qed.

(** The method, step by step: the client is chosen first, and a refusal of
    the constructor ends the call there; then the request body is built, and
    an unsupported task kind ends it there; then one command is sent, and
    the outcome is that of decoding the answer, seen through the [catch]. *)
Lemma generateImage_run host this options w :
  generateImage host this options w =
    match requestClient host this options with
    | Throw t => (Throw t, w)
    | Return client =>
        match buildRequestBody options with
        | Throw t => (Throw t, w ++ requestClientEvents host this options)
        | Return requestBody =>
            let command := buildCommand (requestModelId options) requestBody in
            (surfaced host
               (response <~ remote host client command ;;
                decodeResponse host response (requestModelId options)),
             w ++ requestClientEvents host this options ++ [Sent client command])
        end
    end.
Proof.
  unfold generateImage, requestClient, requestClientEvents, requestModelId.
  unfold bind at 1.
  destruct (String.eqb _ _).
  - unfold ret, bind at 1, lift at 1.
    destruct (buildRequestBody options) as [requestBody | t];
      [|now rewrite app_nil_r].
    unfold try_catch, invokeAndDecode, send, bind, lift, throw; simpl.
    destruct (remote host _ _) as [response | t]; simpl.
    + destruct (decodeResponse host response _) as [r | t]; simpl;
        [reflexivity|].
      destruct (message_of host t); reflexivity.
    + destruct (message_of host t); reflexivity.
  - unfold new_BedrockRuntimeClient.
    destruct (client_refused host _) as [t|]; [reflexivity|].
    unfold bind at 1, lift at 1.
    destruct (buildRequestBody options) as [requestBody | t]; [|reflexivity].
    unfold try_catch, invokeAndDecode, send, bind, lift, throw; simpl.
    rewrite <- app_assoc.
    destruct (remote host _ _) as [response | t]; simpl.
    + destruct (decodeResponse host response _) as [r | t]; simpl;
        [reflexivity|].
      destruct (message_of host t); reflexivity.
    + destruct (message_of host t); reflexivity.
Qed.

(** The method when the constructor refuses the region of the request. *)
Lemma generateImage_no_client host this options w t :
  requestClient host this options = Throw t ->
  generateImage host this options w = (Throw t, w).
Proof. intros C. now rewrite generateImage_run, C. Qed.

(** The method on a request it rejects: a client may have been constructed,
    nothing else has happened. *)
Lemma generateImage_unrecognized host this options w client :
  requestClient host this options = Return client ->
  recognized (taskType options) = false ->
  generateImage host this options w =
    (Throw (InvalidTask (taskType options)),
     w ++ requestClientEvents host this options).
Proof.
  intros C H.
  now rewrite generateImage_run, C, (buildRequestBody_unrecognized _ H).
Qed.

(** The method on a request it builds: one command is sent, and the outcome
    is that of decoding the answer, seen through the [catch]. *)
Lemma generateImage_built host this options w client requestBody :
  requestClient host this options = Return client ->
  buildRequestBody options = Return requestBody ->
  let command := buildCommand (requestModelId options) requestBody in
  generateImage host this options w =
    (surfaced host
       (response <~ remote host client command ;;
        decodeResponse host response (requestModelId options)),
     w ++ requestClientEvents host this options ++ [Sent client command]).
Proof.
  intros C H. now rewrite generateImage_run, C, H.
Qed.

(** The one command of a request the method builds carries the payload,
    the model identifier of the request, and the JSON content types. *)
Lemma generateImage_sends_payload host this options w client :
  requestClient host this options = Return client ->
  recognized (taskType options) = true ->
  sent_commands (snd (generateImage host this options w)) =
    sent_commands w ++
    [{| InvokeModelCommand.modelId := requestModelId options;
        InvokeModelCommand.body := payload options;
        InvokeModelCommand.contentType := "application/json";
        InvokeModelCommand.accept := "application/json" |}].
Proof.
  intros C H.
  destruct (buildRequestBody_recognized options H) as [params E].
  rewrite (generateImage_built host this options w _ _ C E); simpl.
  rewrite !sent_commands_app, sent_commands_client_events.
  unfold payload. rewrite E. reflexivity.
Qed.

(** C7, counterexample: the client is chosen before the task kind is looked
    at, so a request for a region the constructor refuses fails with the
    constructor's error, whatever its task kind. *)
Lemma region_is_checked_before_the_task :
  ~ unrecognized_is_invalid_task (images_host VNull) default_this
      (elsewhere "" (request "BOGUS")).
Proof.
  intros H. specialize (H eq_refl). discriminate H.
Qed.

(** C7, as the method behaves: a request whose task kind is none of the five
    sends no command, whatever else happens: the commands sent are those
    sent before the call.  When its client is there, the instance's own or
    one constructed for its region, the call fails with the unsupported-task
    error, raised as it is; when the constructor refuses the region, it
    fails with the constructor's error. *)
Theorem unrecognized_task_fails_before_send host this options w :
  recognized (taskType options) = false ->
  sent_commands (snd (generateImage host this options w)) = sent_commands w
  /\ (forall client,
        requestClient host this options = Return client ->
        fst (generateImage host this options w)
        = Throw (InvalidTask (taskType options)))
  /\ (forall t,
        requestClient host this options = Throw t ->
        fst (generateImage host this options w) = Throw t).
Proof.
  intros H. repeat split.
  - destruct (requestClient host this options) as [client | t] eqn:C.
    + rewrite (generateImage_unrecognized host this options w _ C H); simpl.
      now rewrite sent_commands_app, sent_commands_client_events, app_nil_r.
    + now rewrite (generateImage_no_client host this options w _ C).
  - intros client C.
    now rewrite (generateImage_unrecognized host this options w _ C H).
  - intros t C.
    now rewrite (generateImage_no_client host this options w _ C).
Qed.

Lemma unrecognized_task_witness :
  let host := stub_host (Return {| response_body := Some [] |})
                        (Return (VObj [("images", VArr [VStr "QUJD"])])) in
  recognized "BOGUS" = false
  /\ sent_commands (snd (generateImage host default_this (request "BOGUS") [])) = []
  /\ fst (generateImage host default_this (request "BOGUS") [])
     = Throw (TError "Unsupported taskType: BOGUS")
  /\ fst (generateImage host default_this (elsewhere "" (request "BOGUS")) [])
     = Throw (TError "Region is missing").
Proof.
  intros host.
  split; [reflexivity|].
  destruct (unrecognized_task_fails_before_send host default_this
              (request "BOGUS") [] eq_refl) as (S & I & _).
  destruct (unrecognized_task_fails_before_send host default_this
              (elsewhere "" (request "BOGUS")) [] eq_refl) as (_ & _ & R).
  split; [exact S|]. split.
  - exact (I _ eq_refl).
  - exact (R _ eq_refl).
Defined.

(** ** The payload *)

Lemma JSON_stringify_object o :
  JSON_stringify (VObj o) = Some (JObj (json_members o)).
Proof. reflexivity. Qed.

Lemma json_members_cons k v o :
  json_members ((k, v) :: o) =
    match JSON_stringify v with
    | Some j => (k, j) :: json_members o
    | None => json_members o
    end.
Proof.
  unfold json_members; simpl.
  destruct (JSON_stringify v); reflexivity.
Qed.

Lemma json_members_app o1 o2 :
  json_members (o1 ++ o2) = json_members o1 ++ json_members o2.
Proof. apply flat_map_app. Qed.

Lemma payload_recognized options :
  recognized (taskType options) = true ->
  exists params,
    payload options =
      Some (JObj [("taskType", JStr (taskType options));
                  ("imageGenerationConfig",
                   JObj (json_members (imageGenerationConfig options)));
                  (section_of (taskType options), JObj (json_members params))]).
Proof.
  intros H.
  destruct (buildRequestBody_recognized options H) as [params E].
  exists params. unfold payload. rewrite E. reflexivity.
Qed.

Lemma section_of_not_envelope taskType :
  recognized taskType = true ->
  String.eqb "imageGenerationConfig" (section_of taskType) = false
  /\ String.eqb "taskType" (section_of taskType) = false.
Proof.
  intros H. apply recognized_cases in H.
  destruct H as [H | [H | [H | [H | H]]]]; subst; split; reflexivity.
Qed.

Lemma generationConfig_recognized options :
  recognized (taskType options) = true ->
  generationConfig options =
    Some (JObj (json_members (imageGenerationConfig options))).
Proof.
  intros H. unfold generationConfig.
  destruct (payload_recognized options H) as [params ->].
  reflexivity.
Qed.

Lemma taskSection_recognized options :
  recognized (taskType options) = true ->
  exists params,
    buildRequestBody options =
      Return [("taskType", VStr (taskType options));
              ("imageGenerationConfig", VObj (imageGenerationConfig options));
              (section_of (taskType options), VObj params)]
    /\ taskSection options = Some (JObj (json_members params)).
Proof.
  intros H.
  destruct (buildRequestBody_recognized options H) as [params E].
  exists params. split; [exact E|].
  unfold taskSection, payload. rewrite E.
  destruct (section_of_not_envelope _ H) as [H1 H2].
  rewrite JSON_stringify_object. unfold member.
  rewrite !json_members_cons. simpl JSON_stringify.
  unfold assoc.
  rewrite String.eqb_sym, H2, String.eqb_sym, H1, String.eqb_refl.
  reflexivity.
Qed.

(** C4: for each of the five task kinds the payload is the envelope (task
    kind tag and generation-config block) followed by one task section, the
    one named for the task kind; of the five section names, the payload has
    that one and no other. *)
Theorem payload_has_exactly_its_task_section options :
  recognized (taskType options) = true ->
  exists config params,
    let members :=
      [("taskType", JStr (taskType options));
       ("imageGenerationConfig", JObj config);
       (section_of (taskType options), JObj params)] in
    payload options = Some (JObj members)
    /\ forall k, In k sections ->
         has_key k members = String.eqb k (section_of (taskType options)).
Proof.
  intros H.
  destruct (payload_recognized options H) as [params E].
  do 2 eexists. split; [exact E|].
  apply recognized_cases in H.
  intros k Hk. simpl in Hk.
  destruct H as [H | [H | [H | [H | H]]]]; rewrite H;
    repeat (destruct Hk as [<- | Hk]; [reflexivity|]); contradiction.
Qed.

Lemma payload_has_exactly_its_task_section_witness :
  recognized "BACKGROUND_REMOVAL" = true
  /\ exists config params,
       payload (request "BACKGROUND_REMOVAL") =
         Some (JObj [("taskType", JStr "BACKGROUND_REMOVAL");
                     ("imageGenerationConfig", JObj config);
                     ("backgroundRemovalParams", JObj params)])
       /\ forall k, In k sections ->
            has_key k [("taskType", JStr "BACKGROUND_REMOVAL");
                       ("imageGenerationConfig", JObj config);
                       ("backgroundRemovalParams", JObj params)]
            = String.eqb k "backgroundRemovalParams".
Proof.
  split; [reflexivity|].
  apply (payload_has_exactly_its_task_section (request "BACKGROUND_REMOVAL")).
  reflexivity.
Defined.

(** The generation-config block, member by member: the three fields that
    are always there, then [seed] when the caller gave one, then [width] and
    [height] when their values, defaults applied, are truthy. *)
Lemma imageGenerationConfig_members options :
  let c := with_default emptyImageConfig (imageConfig options) in
  let w := with_default 1024%float (width c) in
  let h := with_default 1024%float (height c) in
  json_members (imageGenerationConfig options) =
    [("numberOfImages", json_of_number (with_default 1%float (numberOfImages c)));
     ("quality", JStr (with_default "premium" (quality c)));
     ("cfgScale", json_of_number (with_default 8%float (cfgScale c)))]
    ++ match seed c with
       | Some s => [("seed", json_of_number s)]
       | None => []
       end
    ++ (if truthy (VNum w) then [("width", json_of_number w)] else [])
    ++ (if truthy (VNum h) then [("height", json_of_number h)] else []).
Proof.
  intros c w h. unfold imageGenerationConfig.
  fold c. fold w. fold h.
  rewrite !json_members_app. f_equal.
  unfold js_and.
  destruct (seed c); destruct (truthy (VNum w)); destruct (truthy (VNum h));
    reflexivity.
Qed.

(** C1, counterexample: with nothing given, the block carries the default
    dimensions 1024 by 1024; and a width of 0, given together with a height
    and a seed, is left out. *)
Lemma omitted_dimensions_default_to_1024 :
  ~ omitted_stay_out (request "TEXT_IMAGE")
  /\ ~ supplied_go_in (with_imageConfig zero_width_config (request "TEXT_IMAGE")).
Proof.
  split; intros H.
  - destruct (H eq_refl eq_refl eq_refl _ eq_refl) as [H1 _].
    vm_compute in H1. discriminate H1.
  - destruct (H _ _ _ eq_refl eq_refl eq_refl _ eq_refl) as [H1 _].
    vm_compute in H1. discriminate H1.
Qed.

(** C1, as the method behaves: when width, height and seed are all left
    out, the block has width 1024 and height 1024, the defaults, and no seed
    key; when all three are given and width and height are truthy (neither
    zero nor NaN), the block has all three, each with the value given, as
    JSON writes it. *)
Theorem generation_config_seed_and_dimensions options :
  recognized (taskType options) = true ->
  let c := with_default emptyImageConfig (imageConfig options) in
  exists block,
    generationConfig options = Some (JObj block)
    /\ (width c = None -> height c = None -> seed c = None ->
        assoc "width" block = Some (JNum 1024%float)
        /\ assoc "height" block = Some (JNum 1024%float)
        /\ has_key "seed" block = false)
    /\ (forall w h s,
        width c = Some w -> height c = Some h -> seed c = Some s ->
        truthy (VNum w) = true -> truthy (VNum h) = true ->
        assoc "width" block = Some (json_of_number w)
        /\ assoc "height" block = Some (json_of_number h)
        /\ assoc "seed" block = Some (json_of_number s)).
Proof.
  intros H c.
  eexists. split; [apply (generationConfig_recognized options H)|].
  rewrite imageGenerationConfig_members. fold c.
  split.
  - intros -> -> ->. repeat split; reflexivity.
  - intros w h s -> -> -> Hw Hh. simpl with_default.
    rewrite Hw, Hh. repeat split; reflexivity.
Qed.

Lemma generation_config_seed_and_dimensions_witness :
  recognized "COLOR_GUIDED_GENERATION" = true
  /\ (exists block,
        generationConfig
          (with_imageConfig full_config (request "COLOR_GUIDED_GENERATION"))
          = Some (JObj block)
        /\ assoc "width" block = Some (JNum 512%float)
        /\ assoc "height" block = Some (JNum 768%float)
        /\ assoc "seed" block = Some (JNum 100%float))
  /\ (exists block,
        generationConfig (request "COLOR_GUIDED_GENERATION") = Some (JObj block)
        /\ assoc "width" block = Some (JNum 1024%float)
        /\ assoc "height" block = Some (JNum 1024%float)
        /\ has_key "seed" block = false).
Proof.
  split; [reflexivity|].
  split.
  - destruct (generation_config_seed_and_dimensions
                (with_imageConfig full_config (request "COLOR_GUIDED_GENERATION"))
                eq_refl) as (block & E & _ & Hgiven).
    exists block. split; [exact E|].
    exact (Hgiven _ _ _ eq_refl eq_refl eq_refl eq_refl eq_refl).
  - destruct (generation_config_seed_and_dimensions
                (request "COLOR_GUIDED_GENERATION") eq_refl)
      as (block & E & Homitted & _).
    exists block. split; [exact E|].
    exact (Homitted eq_refl eq_refl eq_refl).
Defined.

(** C10: a width of 0, or a height of 0, given by the caller is left out of
    the generation-config block, while a seed of 0 given by the caller is
    written into it. *)
Theorem zero_dimensions_left_out_zero_seed_kept options c :
  recognized (taskType options) = true ->
  imageConfig options = Some c ->
  exists block,
    generationConfig options = Some (JObj block)
    /\ (width c = Some 0%float -> has_key "width" block = false)
    /\ (height c = Some 0%float -> has_key "height" block = false)
    /\ (seed c = Some 0%float -> assoc "seed" block = Some (JNum 0%float)).
Proof.
  intros H Hc.
  eexists. split; [apply (generationConfig_recognized options H)|].
  rewrite imageGenerationConfig_members. rewrite Hc. simpl with_default.
  repeat split.
  - intros ->. simpl with_default.
    replace (truthy (VNum 0%float)) with false by reflexivity.
    destruct (seed c); destruct (truthy _); reflexivity.
  - intros ->. simpl with_default.
    replace (truthy (VNum 0%float)) with false by reflexivity.
    destruct (seed c); destruct (truthy _); reflexivity.
  - intros ->. reflexivity.
Qed.

Lemma zero_dimensions_left_out_zero_seed_kept_witness :
  recognized "TEXT_IMAGE" = true
  /\ exists block,
       generationConfig (with_imageConfig zero_config (request "TEXT_IMAGE"))
         = Some (JObj block)
       /\ (Some 0%float = Some 0%float -> has_key "width" block = false)
       /\ (Some 0%float = Some 0%float -> has_key "height" block = false)
       /\ (Some 0%float = Some 0%float -> assoc "seed" block = Some (JNum 0%float)).
Proof.
  split; [reflexivity|].
  apply (zero_dimensions_left_out_zero_seed_kept
           (with_imageConfig zero_config (request "TEXT_IMAGE")) zero_config);
    reflexivity.
Defined.

(** C3, counterexample: an inpainting request, and an outpainting one, that
    give both masks are not rejected, and both masks are in the payload. *)
Lemma both_masks_pass_through :
  ~ at_most_one_mask (both_masks "INPAINTING")
  /\ ~ at_most_one_mask (both_masks "OUTPAINTING")
  /\ taskSection (both_masks "INPAINTING")
     = Some (JObj [("image", JStr "aW1hZ2U="); ("maskImage", JStr "bWFzaw==");
                   ("maskPrompt", JStr "Tree"); ("text", JStr "A palm tree")]).
Proof.
  split; [|split].
  - intros H. specialize (H _ eq_refl). discriminate H.
  - intros H. specialize (H _ eq_refl). discriminate H.
  - reflexivity.
Qed.

Lemma json_members_str k o rest :
  json_members ((k, str o) :: rest) =
    match o with
    | Some s => (k, JStr s) :: json_members rest
    | None => json_members rest
    end.
Proof. rewrite json_members_cons. destruct o; reflexivity. Qed.

Lemma js_or_str o d :
  js_or (str o) (VStr d) = VStr (or_else o d).
Proof.
  destruct o as [s|]; [|reflexivity].
  unfold js_or, or_else; simpl.
  destruct (String.eqb s ""); reflexivity.
Qed.

(** C3, as the method behaves: in the task section of an inpainting or
    outpainting payload the mask image and the mask prompt are the caller's
    own, each present exactly when the caller gave it and with the value
    given; so at most one is set exactly when the caller gave at most one. *)
Theorem mask_fields_are_the_callers options :
  taskType options = "INPAINTING" \/ taskType options = "OUTPAINTING" ->
  exists params,
    taskSection options = Some (JObj params)
    /\ assoc "maskImage" params = option_map JStr (maskImage options)
    /\ assoc "maskPrompt" params = option_map JStr (maskPrompt options).
Proof.
  intros H.
  assert (R : recognized (taskType options) = true)
    by (destruct H as [-> | ->]; reflexivity).
  destruct (taskSection_recognized options R) as (params & E & S).
  exists (json_members params). split; [exact S|].
  unfold buildRequestBody in E.
  destruct H as [H | H]; rewrite H in E; simpl in E;
    injection E as <-;
    rewrite ?js_or_str, !json_members_str;
    destruct (base64Image options), (maskImage options), (maskPrompt options),
      (prompt options), (negativePrompt options);
    split; reflexivity.
Qed.

Lemma mask_fields_are_the_callers_witness :
  ("OUTPAINTING" = "INPAINTING" \/ "OUTPAINTING" = "OUTPAINTING")
  /\ exists params,
       taskSection (both_masks "OUTPAINTING") = Some (JObj params)
       /\ assoc "maskImage" params = Some (JStr "bWFzaw==")
       /\ assoc "maskPrompt" params = Some (JStr "Tree").
Proof.
  split; [right; reflexivity|].
  apply (mask_fields_are_the_callers (both_masks "OUTPAINTING")).
  right; reflexivity.
Defined.

(** ** The response *)

Lemma remote_answer_built host client options response :
  remote_answer host client options = Return response ->
  exists requestBody,
    buildRequestBody options = Return requestBody
    /\ remote host client (buildCommand (requestModelId options) requestBody)
       = Return response.
Proof.
  unfold remote_answer.
  destruct (buildRequestBody options) as [requestBody | t]; simpl.
  - intros H. now exists requestBody.
  - discriminate.
Qed.

Lemma generateImage_answered host this options w client response :
  requestClient host this options = Return client ->
  remote_answer host client options = Return response ->
  fst (generateImage host this options w) =
    surfaced host (decodeResponse host response (requestModelId options)).
Proof.
  intros C H.
  destruct (remote_answer_built _ _ _ _ H) as (requestBody & E & A).
  rewrite (generateImage_built host this options w _ _ C E); simpl.
  now rewrite A.
Qed.

Lemma decodeResponse_parsed host body responseBody modelId :
  JSON_parse host (TextDecoder_decode host body) = Return responseBody ->
  decodeResponse host {| response_body := Some body |} modelId =
    (error <~ get_named responseBody "error" ;;
     if truthy error
     then text <~ ToString host error ;; Throw (RemoteError text)
     else
       images <~ get_named responseBody "images" ;;
       if negb (truthy images) then Throw EmptyResult
       else
         first <~ get_index images 0 ;;
         if negb (truthy first) then Throw EmptyResult
         else
           imageBytes <~ Buffer_from_base64 host first ;;
           Return {| ImageGenerationResult.imageBytes := imageBytes;
                     ImageGenerationResult.base64Image := first;
                     ImageGenerationResult.modelId := modelId |}).
Proof.
  intros H. unfold decodeResponse; simpl. now rewrite H.
Qed.

(** The only error of taking the string form of a value. *)
Lemma ToString_throws host :
  forall v t, ToString host v = Throw t -> t = TypeError_primitive.
Proof.
  fix IH 1.
  intros v t. destruct v as [| | [|] | n | s | l | props]; simpl;
    try discriminate.
  - intros T.
    assert (L : forall t0,
               in_turn (map (fun e => match e with
                                      | VUndefined | VNull => Return ""
                                      | _ => ToString host e
                                      end) l) = Throw t0 ->
               t0 = TypeError_primitive).
    { clear T. induction l as [|e rest IHl]; cbn [map in_turn]; intros t0 E.
      - discriminate E.
      - pose proof (IH e) as He.
        destruct (match e with
                  | VUndefined | VNull => Return ""
                  | _ => ToString host e
                  end) as [part | t1] eqn:P; cbn [and_then] in E.
        + destruct (in_turn _) as [others | t2]; cbn [and_then] in E;
            [discriminate E | injection E as <-; now apply IHl].
        + injection E as <-.
          destruct e; try discriminate P; exact (He _ P). }
    destruct (in_turn _) as [parts | t0]; simpl in T; [discriminate T|].
    injection T as <-. now apply L.
  - destruct (has_key "toString" props); [|discriminate].
    now intros [= <-].
Qed.

(** C5: when the response decodes to an object whose [images] is an array
    that starts with a string [s], a call that succeeds returns [s] as its
    base64 field, the base64 decoding of [s] as its bytes, and the model
    identifier of the request, the caller's or the default; and a call whose
    client is there does succeed when [s] is not empty and the object has no
    truthy error field. *)
Theorem decoded_image_is_returned host this options w client body props s rest :
  requestClient host this options = Return client ->
  remote_answer host client options = Return {| response_body := Some body |} ->
  JSON_parse host (TextDecoder_decode host body) = Return (VObj props) ->
  assoc "images" props = Some (VArr (VStr s :: rest)) ->
  let result :=
    {| ImageGenerationResult.imageBytes := base64_decode s;
       ImageGenerationResult.base64Image := VStr s;
       ImageGenerationResult.modelId :=
         with_default "amazon.nova-canvas-v1:0" (modelId options) |} in
  (forall r, fst (generateImage host this options w) = Return r -> r = result)
  /\ (truthy (with_default VUndefined (assoc "error" props)) = false ->
      s <> "" ->
      fst (generateImage host this options w) = Return result).
Proof.
  intros C A P I result.
  rewrite (generateImage_answered _ _ _ w _ _ C A).
  rewrite (decodeResponse_parsed _ _ _ _ P).
  simpl. rewrite I. simpl.
  destruct (truthy (with_default VUndefined (assoc "error" props))); simpl.
  - split; [|discriminate].
    destruct (ToString host _) as [text | t]; simpl; [discriminate|].
    destruct (message_of host t); discriminate.
  - destruct (String.eqb_spec s "") as [-> | Hs]; simpl.
    + split; [discriminate | intros _ Hs; now destruct Hs].
    + split; [intros r [= <-] | intros _ _]; reflexivity.
Qed.

Lemma decoded_image_is_returned_witness :
  let host := images_host (VObj [("images", VArr [VStr "QUJD"])]) in
  let options := request "TEXT_IMAGE" in
  let client := {| config_region := "us-east-1" |} in
  requestClient host default_this options = Return client
  /\ remote_answer host client options = Return {| response_body := Some [] |}
  /\ fst (generateImage host default_this options [])
     = Return {| ImageGenerationResult.imageBytes := [x41; x42; x43];
                 ImageGenerationResult.base64Image := VStr "QUJD";
                 ImageGenerationResult.modelId := "amazon.nova-canvas-v1:0" |}.
Proof.
  intros host options client.
  split; [reflexivity|]. split; [reflexivity|].
  apply (decoded_image_is_returned host default_this options [] client []
           [("images", VArr [VStr "QUJD"])] "QUJD" []);
    try reflexivity.
  discriminate.
Defined.

(** C9, counterexample: the error field is looked at first, so a response
    with a truthy error and an [images] that starts with the empty string
    fails with the remote error, not the no-image one. *)
Lemma error_is_looked_at_before_images :
  ~ empty_first_image_fails
      (images_host (VObj [("error", VStr "boom"); ("images", VArr [VStr ""])]))
      default_this (request "TEXT_IMAGE").
Proof.
  intros H.
  specialize (H _ [] _ [] eq_refl eq_refl eq_refl eq_refl).
  discriminate H.
Qed.

(** C9, as the method behaves: when the client is there and the response
    decodes to an object that has no truthy error field and whose [images]
    is an array that starts with the empty string, the call fails with the
    no-image error, which reaches the caller with the message of the [catch]
    in front, however many elements follow. *)
Theorem empty_first_image_is_no_image host this options w client body props rest :
  requestClient host this options = Return client ->
  remote_answer host client options = Return {| response_body := Some body |} ->
  JSON_parse host (TextDecoder_decode host body) = Return (VObj props) ->
  truthy (with_default VUndefined (assoc "error" props)) = false ->
  assoc "images" props = Some (VArr (VStr "" :: rest)) ->
  fst (generateImage host this options w)
  = Throw (TError "Image generation failed: No image returned from model").
Proof.
  intros C A P E I.
  rewrite (generateImage_answered _ _ _ w _ _ C A).
  rewrite (decodeResponse_parsed _ _ _ _ P).
  simpl. rewrite E, I. reflexivity.
Qed.

Lemma empty_first_image_is_no_image_witness :
  let host := images_host (VObj [("images", VArr [VStr ""; VStr "QUJD"])]) in
  let options := request "BACKGROUND_REMOVAL" in
  let client := {| config_region := "us-east-1" |} in
  requestClient host default_this options = Return client
  /\ remote_answer host client options = Return {| response_body := Some [] |}
  /\ fst (generateImage host default_this options [])
     = Throw (TError "Image generation failed: No image returned from model").
Proof.
  intros host options client.
  split; [reflexivity|]. split; [reflexivity|].
  apply (empty_first_image_is_no_image host default_this options [] client []
           [("images", VArr [VStr ""; VStr "QUJD"])] [VStr "QUJD"]);
    reflexivity.
Defined.

(** C6, counterexample: an object with an empty error string and an image
    gives a result, and so does an object whose [images] is a string rather
    than an array. *)
Lemma falsy_error_and_string_images_succeed :
  ~ error_field_fails
      (images_host (VObj [("error", VStr ""); ("images", VArr [VStr "QUJD"])]))
      default_this (request "TEXT_IMAGE")
  /\ ~ no_images_array_fails
         (images_host (VObj [("images", VStr "QUJD")]))
         default_this (request "TEXT_IMAGE").
Proof.
  split; intros H.
  - destruct (H _ [] _ _ eq_refl eq_refl eq_refl eq_refl) as [text E].
    discriminate E.
  - specialize (H _ [] _ eq_refl eq_refl eq_refl eq_refl eq_refl).
    discriminate H.
Qed.

(** C6, as the method behaves: when the client is there and the decoded
    response has a truthy [error], the call fails with the remote error,
    whose message carries the string form of that value, or, for a value
    that has none (an object with a member named toString), with the error
    of taking it; when [error] is absent or falsy and [images] is absent or
    falsy, or its element 0 is absent or falsy (as for an empty array), the
    call fails with the no-image error.  Each failure reaches the caller as
    one error that differs from any other only by its message, which is the
    message of the [catch] followed by the inner one. *)
Theorem remote_error_and_empty_result
    host this options w client body responseBody error :
  requestClient host this options = Return client ->
  remote_answer host client options = Return {| response_body := Some body |} ->
  JSON_parse host (TextDecoder_decode host body) = Return responseBody ->
  get_named responseBody "error" = Return error ->
  (truthy error = true ->
   (forall text,
      ToString host error = Return text ->
      fst (generateImage host this options w)
      = Throw (TError ("Image generation failed: Model error: " ++ text)%string))
   /\ (forall t,
         ToString host error = Throw t ->
         fst (generateImage host this options w)
         = Throw (TError
                    "Image generation failed: Cannot convert object to primitive value")))
  /\ (truthy error = false ->
      forall images,
        get_named responseBody "images" = Return images ->
        truthy images = false
        \/ (exists first, get_index images 0 = Return first /\ truthy first = false) ->
        fst (generateImage host this options w)
        = Throw (TError "Image generation failed: No image returned from model")).
Proof.
  intros C A P E.
  rewrite (generateImage_answered _ _ _ w _ _ C A).
  rewrite (decodeResponse_parsed _ _ _ _ P).
  rewrite E. simpl.
  split; intros T; rewrite T.
  - split.
    + intros text S. rewrite S. reflexivity.
    + intros t S. rewrite S.
      now rewrite (ToString_throws host _ _ S).
  - intros images I [F | (first & G & F)]; rewrite I; simpl.
    + rewrite F. reflexivity.
    + destruct (truthy images); simpl; [|reflexivity].
      rewrite G. simpl. rewrite F. reflexivity.
Qed.

Lemma remote_error_and_empty_result_witness :
  let client := {| config_region := "us-east-1" |} in
  let options := request "TEXT_IMAGE" in
  (let host := images_host (VObj [("error", VStr "x")]) in
   requestClient host default_this options = Return client
   /\ remote_answer host client options = Return {| response_body := Some [] |}
   /\ fst (generateImage host default_this options [])
      = Throw (TError "Image generation failed: Model error: x"))
  /\ (let host :=
        images_host (VObj [("error", VObj [("toString", VNum 1%float)])]) in
      fst (generateImage host default_this options [])
      = Throw (TError
                 "Image generation failed: Cannot convert object to primitive value"))
  /\ (let host := images_host (VObj [("images", VArr [])]) in
      fst (generateImage host default_this options [])
      = Throw (TError "Image generation failed: No image returned from model")).
Proof.
  intros client options.
  split; [|split].
  - intros host. split; [reflexivity|]. split; [reflexivity|].
    destruct (remote_error_and_empty_result host default_this options [] client
                [] (VObj [("error", VStr "x")]) (VStr "x")
                eq_refl eq_refl eq_refl eq_refl) as [T _].
    exact (proj1 (T eq_refl) "x" eq_refl).
  - intros host.
    destruct (remote_error_and_empty_result host default_this options [] client
                [] (VObj [("error", VObj [("toString", VNum 1%float)])])
                (VObj [("toString", VNum 1%float)])
                eq_refl eq_refl eq_refl eq_refl) as [T _].
    exact (proj2 (T eq_refl) TypeError_primitive eq_refl).
  - intros host.
    destruct (remote_error_and_empty_result host default_this options [] client
                [] (VObj [("images", VArr [])]) VUndefined
                eq_refl eq_refl eq_refl eq_refl) as [_ F].
    apply (F eq_refl (VArr []) eq_refl).
    right. exists VUndefined. split; reflexivity.
Defined.




(** ** Base64 round trip *)

Lemma below_spec k P :
  below k P = true -> forall n, (n < N.of_nat k)%N -> P n = true.
Proof.
  induction k as [|k IH]; cbn [below]; intros H n Hn.
  - lia.
  - apply andb_prop in H as [H1 H2].
    destruct (N.eq_dec n (N.of_nat k)) as [-> | Hne]; [exact H1|].
    apply IH; [exact H2 | lia].
Qed.

Lemma byte_below_256 (x : byte) : (Byte.to_N x < N.of_nat 256)%N.
Proof. pose proof (Byte.to_N_bounded x). lia. Qed.

Lemma for_every_byte (P : N -> bool) :
  below 256 P = true -> forall x : byte, P (Byte.to_N x) = true.
Proof. intros H x. apply (below_spec _ _ H), byte_below_256. Qed.

Lemma for_every_two_bytes (P : N -> N -> bool) :
  below 256 (fun a => below 256 (P a)) = true ->
  forall x y : byte, P (Byte.to_N x) (Byte.to_N y) = true.
Proof.
  intros H x y.
  apply (below_spec _ _ (below_spec _ _ H _ (byte_below_256 x))), byte_below_256.
Qed.

Lemma to_N_inj (x y : byte) : Byte.to_N x = Byte.to_N y -> x = y.
Proof.
  intros H. pose proof (Byte.of_to_N x) as Hx.
  rewrite H, Byte.of_to_N in Hx. now injection Hx.
Qed.

Lemma base64_char_read n rest :
  (n < 64)%N -> sextets (String (base64_char n) rest) = n :: sextets rest.
Proof.
  intros Hn.
  assert (C : (match unbase64 (base64_char n) with
               | Some m => N.eqb m n
               | None => false
               end && negb (Ascii.eqb (base64_char n) "="))%bool = true).
  { apply (below_spec 64 (fun n => match unbase64 (base64_char n) with
                                   | Some m => N.eqb m n
                                   | None => false
                                   end && negb (Ascii.eqb (base64_char n) "="))%bool).
    - vm_compute. reflexivity.
    - exact Hn. }
  apply andb_prop in C as [C1 C2].
  cbn [sextets].
  destruct (Ascii.eqb (base64_char n) "="); [discriminate C2|].
  destruct (unbase64 (base64_char n)) as [m|]; [|discriminate C1].
  apply N.eqb_eq in C1. now subst m.
Qed.

Ltac run_through_bytes x y :=
  match goal with
  | |- ?t = true =>
      let t' := eval pattern (Byte.to_N x), (Byte.to_N y) in t in
      match t' with
      | ?P _ _ => refine (for_every_two_bytes P _ x y); vm_compute; reflexivity
      end
  end.

(** The six-bit values of a group are below 64. *)
Lemma sextets_in_range (x y : byte) :
  (N.shiftr (Byte.to_N x) 2 < 64)%N
  /\ (N.shiftl (N.land (Byte.to_N x) 3) 4 < 64)%N
  /\ (N.lor (N.shiftl (N.land (Byte.to_N x) 3) 4) (N.shiftr (Byte.to_N y) 4) < 64)%N
  /\ (N.shiftl (N.land (Byte.to_N x) 15) 2 < 64)%N
  /\ (N.lor (N.shiftl (N.land (Byte.to_N x) 15) 2) (N.shiftr (Byte.to_N y) 6) < 64)%N
  /\ (N.land (Byte.to_N x) 63 < 64)%N.
Proof.
  set (a := Byte.to_N x). set (b := Byte.to_N y).
  assert (C : (N.ltb (N.shiftr a 2) 64
               && N.ltb (N.shiftl (N.land a 3) 4) 64
               && N.ltb (N.lor (N.shiftl (N.land a 3) 4) (N.shiftr b 4)) 64
               && N.ltb (N.shiftl (N.land a 15) 2) 64
               && N.ltb (N.lor (N.shiftl (N.land a 15) 2) (N.shiftr b 6)) 64
               && N.ltb (N.land a 63) 64)%bool = true)
    by (subst a b; run_through_bytes x y).
  repeat (apply andb_prop in C as [C ?]).
  repeat split; now apply N.ltb_lt.
Qed.

Lemma first_byte_back (x y : byte) :
  decode_byte1 (N.shiftr (Byte.to_N x) 2)
    (N.lor (N.shiftl (N.land (Byte.to_N x) 3) 4) (N.shiftr (Byte.to_N y) 4)) = x
  /\ decode_byte1 (N.shiftr (Byte.to_N x) 2)
       (N.shiftl (N.land (Byte.to_N x) 3) 4) = x.
Proof.
  split; apply to_N_inj; apply N.eqb_eq; run_through_bytes x y.
Qed.

Lemma second_byte_back (x y z : byte) :
  decode_byte2
    (N.lor (N.shiftl (N.land (Byte.to_N x) 3) 4) (N.shiftr (Byte.to_N y) 4))
    (N.lor (N.shiftl (N.land (Byte.to_N y) 15) 2) (N.shiftr (Byte.to_N z) 6)) = y
  /\ decode_byte2
       (N.lor (N.shiftl (N.land (Byte.to_N x) 3) 4) (N.shiftr (Byte.to_N y) 4))
       (N.shiftl (N.land (Byte.to_N y) 15) 2) = y.
Proof.
  assert (K2 : N.land (N.lor (N.shiftl (N.land (Byte.to_N x) 3) 4)
                             (N.shiftr (Byte.to_N y) 4)) 15
               = N.shiftr (Byte.to_N y) 4)
    by (apply N.eqb_eq; run_through_bytes x y).
  assert (K3 : N.shiftr (N.land (N.lor (N.shiftl (N.land (Byte.to_N y) 15) 2)
                                       (N.shiftr (Byte.to_N z) 6)) 60) 2
               = N.land (Byte.to_N y) 15)
    by (apply N.eqb_eq; run_through_bytes y z).
  assert (K3' : N.shiftr (N.land (N.shiftl (N.land (Byte.to_N y) 15) 2) 60) 2
                = N.land (Byte.to_N y) 15)
    by (apply N.eqb_eq; run_through_bytes y z).
  assert (K4 : byte_of_N (N.lor (N.shiftl (N.shiftr (Byte.to_N y) 4) 4)
                                (N.land (Byte.to_N y) 15)) = y)
    by (apply to_N_inj; apply N.eqb_eq; run_through_bytes y z).
  unfold decode_byte2.
  rewrite K2, K3, K3'. now split.
Qed.

Lemma third_byte_back (y z : byte) :
  decode_byte3
    (N.lor (N.shiftl (N.land (Byte.to_N y) 15) 2) (N.shiftr (Byte.to_N z) 6))
    (N.land (Byte.to_N z) 63) = z.
Proof.
  apply to_N_inj; apply N.eqb_eq; run_through_bytes y z.
Qed.

Lemma list_ind3 {A} (P : list A -> Prop) :
  P [] -> (forall a, P [a]) -> (forall a b, P [a; b]) ->
  (forall a b c l, P l -> P (a :: b :: c :: l)) ->
  forall l, P l.
Proof.
  intros H0 H1 H2 H3.
  fix IH 1.
  intros [|a [|b [|c l]]].
  - exact H0.
  - apply H1.
  - apply H2.
  - apply H3. apply IH.
Qed.

(** C8: decoding the base64 encoding of any bytes gives the bytes back. *)
Theorem base64_round_trip (bs : list byte) :
  base64_decode (base64_encode bs) = bs.
Proof.
  unfold base64_decode.
  induction bs as [| x | x y | x y z rest IH] using list_ind3.
  - reflexivity.
  - destruct (sextets_in_range x x) as (R0 & R1 & _).
    cbn [base64_encode].
    rewrite !base64_char_read by assumption.
    cbn [sextets bytes_of_sextets Ascii.eqb Bool.eqb].
    now rewrite (proj2 (first_byte_back x x)).
  - destruct (sextets_in_range x y) as (R0 & _ & R1 & _).
    destruct (sextets_in_range y y) as (_ & _ & _ & R2 & _).
    cbn [base64_encode].
    rewrite !base64_char_read by assumption.
    cbn [sextets bytes_of_sextets Ascii.eqb Bool.eqb].
    now rewrite (proj1 (first_byte_back x y)), (proj2 (second_byte_back x y y)).
  - destruct (sextets_in_range x y) as (R0 & _ & R1 & _).
    destruct (sextets_in_range y z) as (_ & _ & _ & _ & R2 & _).
    destruct (sextets_in_range z z) as (_ & _ & _ & _ & _ & R3).
    cbn [base64_encode encode_group3 String.append].
    rewrite !base64_char_read by assumption.
    cbn [bytes_of_sextets].
    rewrite (proj1 (first_byte_back x y)), (proj1 (second_byte_back x y z)),
      (third_byte_back y z).
    now rewrite IH.
Qed.

(** ** One request, from construction to the command sent *)

(** X1: An instance that the constructor has made sends every request it
    builds through a client bound to the region of the request: the
    instance's own client when the request names no region or the
    instance's, a client constructed for the call otherwise.  When the
    constructor of the client refuses the region of the request, as it does
    an empty one, the call fails with that error as it is and nothing is
    sent.  The constructor of the class takes an empty region for a missing
    one; the method does not. *)
Theorem request_goes_through_client_of_its_region host r options w :
  let own := or_else r "us-east-1" in
  let target := with_default own (region options) in
  let call := this <- new_BedrockImageManipulation host r ;;
              generateImage host this options in
  client_refused host own = None ->
  recognized (taskType options) = true ->
  (String.eqb target own = true \/ client_refused host target = None ->
   exists command,
     snd (call w)
     = w ++ NewClient own
          :: (if String.eqb target own then [] else [NewClient target])
          ++ [Sent {| config_region := target |} command]
     /\ InvokeModelCommand.body command = payload options)
  /\ (forall t,
        String.eqb target own = false ->
        client_refused host target = Some t ->
        call w = (Throw t, w ++ [NewClient own])).
Proof.
  intros own target call O H.
  destruct (buildRequestBody_recognized options H) as [params E].
  assert (Run : forall k : BedrockImageManipulation -> M ImageGenerationResult.t,
             (this <- new_BedrockImageManipulation host r ;; k this) w
             = k {| this_bedrock := {| config_region := own |};
                    this_region := own |} (w ++ [NewClient own])).
  { intros k.
    unfold bind at 1, new_BedrockImageManipulation, bind, new_BedrockRuntimeClient, ret.
    fold own. now rewrite O. }
  unfold call. rewrite Run. clear Run.
  rewrite generateImage_run, E.
  unfold requestClient, requestClientEvents; cbn [this_region this_bedrock].
  fold target.
  split.
  - intros A.
    exists (buildCommand (requestModelId options)
              [("taskType", VStr (taskType options));
               ("imageGenerationConfig", VObj (imageGenerationConfig options));
               (section_of (taskType options), VObj params)]).
    split; [|unfold payload; now rewrite E].
    destruct (String.eqb_spec target own) as [-> | N]; simpl.
    + now rewrite <- app_assoc.
    + destruct A as [A | A]; [discriminate A|].
      rewrite A; simpl. now rewrite <- app_assoc.
  - intros t N R. now rewrite N, R.
Qed.

Lemma request_goes_through_client_of_its_region_witness :
  let host := images_host (VObj [("images", VArr [VStr "QUJD"])]) in
  client_refused host "us-east-1" = None
  /\ recognized "TEXT_IMAGE" = true
  /\ (exists command,
        snd ((this <- new_BedrockImageManipulation host (Some "") ;;
              generateImage host this
                (elsewhere "eu-west-1" (request "TEXT_IMAGE"))) [])
        = [NewClient "us-east-1"; NewClient "eu-west-1";
           Sent {| config_region := "eu-west-1" |} command]
        /\ InvokeModelCommand.body command
           = payload (elsewhere "eu-west-1" (request "TEXT_IMAGE")))
  /\ (this <- new_BedrockImageManipulation host (Some "") ;;
      generateImage host this (elsewhere "" (request "TEXT_IMAGE"))) []
     = (Throw (TError "Region is missing"), [NewClient "us-east-1"]).
Proof.
  intros host.
  split; [reflexivity|]. split; [reflexivity|].
  split.
  - destruct (request_goes_through_client_of_its_region host (Some "")
                (elsewhere "eu-west-1" (request "TEXT_IMAGE")) []
                eq_refl eq_refl) as [S _].
    apply S. right. reflexivity.
  - destruct (request_goes_through_client_of_its_region host (Some "")
                (elsewhere "" (request "TEXT_IMAGE")) []
                eq_refl eq_refl) as [_ R].
    apply (R (TError "Region is missing")); reflexivity.
Defined.

(** X2: A call sends one command when its client is there and the task kind
    is one of the five, whatever the remote service answers, and none
    otherwise; it never sends a second one.  The command carries the payload
    as its body, the model identifier of the request, the caller's or the
    default, and the JSON content types; model identifier and region are
    not part of the body. *)
Theorem one_command_per_call host this options w :
  sent_commands (snd (generateImage host this options w)) =
    sent_commands w ++
    match requestClient host this options with
    | Return _ =>
        if recognized (taskType options)
        then [{| InvokeModelCommand.modelId :=
                   with_default "amazon.nova-canvas-v1:0" (modelId options);
                 InvokeModelCommand.body := payload options;
                 InvokeModelCommand.contentType := "application/json";
                 InvokeModelCommand.accept := "application/json" |}]
        else []
    | Throw _ => []
    end.
Proof.
  destruct (requestClient host this options) as [client | t] eqn:C.
  - destruct (recognized (taskType options)) eqn:R.
    + apply (generateImage_sends_payload host this options w _ C R).
    + rewrite (generateImage_unrecognized host this options w _ C R); simpl.
      now rewrite sent_commands_app, sent_commands_client_events.
  - rewrite (generateImage_no_client host this options w _ C); simpl.
    now rewrite app_nil_r.
Qed.

(** ** The generation-config block, its fixed part *)

(** X3: The block of every payload starts with the image count, the quality
    and the guidance scale, the caller's or else 1, "premium" and 8; what
    follows can only be seed, width and height.  Unlike a width or a height,
    a count or a scale of 0 is written as given. *)
Theorem generation_config_count_quality_scale options :
  recognized (taskType options) = true ->
  let c := with_default emptyImageConfig (imageConfig options) in
  exists rest,
    generationConfig options =
      Some (JObj (("numberOfImages",
                   json_of_number (with_default 1%float (numberOfImages c)))
                  :: ("quality", JStr (with_default "premium" (quality c)))
                  :: ("cfgScale",
                      json_of_number (with_default 8%float (cfgScale c)))
                  :: rest))
    /\ forall k, has_key k rest = true ->
         k = "seed" \/ k = "width" \/ k = "height".
Proof.
  intros H c.
  rewrite (generationConfig_recognized options H), imageGenerationConfig_members.
  fold c. eexists. split; [reflexivity|].
  intros k. unfold has_key.
  destruct (seed c); destruct (truthy _); destruct (truthy _); simpl;
    repeat match goal with
           | |- context [String.eqb k ?s] =>
               destruct (String.eqb_spec k s); [auto|]
           end;
    discriminate.
Qed.

Lemma generation_config_count_quality_scale_witness :
  recognized "TEXT_IMAGE" = true
  /\ exists rest,
       generationConfig (with_imageConfig zero_count_config (request "TEXT_IMAGE"))
       = Some (JObj (("numberOfImages", JNum 0%float)
                     :: ("quality", JStr "standard")
                     :: ("cfgScale", JNum 0%float) :: rest))
       /\ forall k, has_key k rest = true ->
            k = "seed" \/ k = "width" \/ k = "height".
Proof.
  split; [reflexivity|].
  apply (generation_config_count_quality_scale
           (with_imageConfig zero_count_config (request "TEXT_IMAGE"))).
  reflexivity.
Defined.

(** ** The task sections, member by member *)

Lemma json_members_num k o rest :
  json_members ((k, num o) :: rest) =
    opt_member k (option_map json_of_number o) ++ json_members rest.
Proof. rewrite json_members_cons. destruct o; reflexivity. Qed.

Lemma json_members_opt_str k o rest :
  json_members ((k, str o) :: rest) =
    opt_member k (option_map JStr o) ++ json_members rest.
Proof. rewrite json_members_str. destruct o; reflexivity. Qed.

Lemma JSON_stringify_strings l :
  JSON_stringify (VArr (map VStr l)) = Some (JArr (map JStr l)).
Proof.
  simpl. rewrite map_map. reflexivity.
Qed.

(** The parameters of a request, read back from the request body. *)
Lemma taskSection_params options params :
  recognized (taskType options) = true ->
  buildRequestBody options =
    Return [("taskType", VStr (taskType options));
            ("imageGenerationConfig", VObj (imageGenerationConfig options));
            (section_of (taskType options), VObj params)] ->
  taskSection options = Some (JObj (json_members params)).
Proof.
  intros R E.
  destruct (taskSection_recognized options R) as (params' & E' & S).
  rewrite E in E'. injection E' as <-. exact S.
Qed.

(** X4: The text-to-image section has the prompt and the negative prompt, when
    given; a control mode and a control strength reach it only together
    with a condition image that is not empty, and are dropped without
    one. *)
Theorem conditioning_needs_a_condition_image options :
  taskType options = "TEXT_IMAGE" ->
  taskSection options =
    Some (JObj (opt_member "text" (option_map JStr (prompt options))
                ++ opt_member "negativeText"
                     (option_map JStr (negativePrompt options))
                ++ match conditionImage options with
                   | Some image =>
                       if String.eqb image "" then []
                       else ("conditionImage", JStr image)
                            :: opt_member "controlMode"
                                 (option_map JStr (controlMode options))
                            ++ opt_member "controlStrength"
                                 (option_map json_of_number
                                    (controlStrength options))
                   | None => []
                   end)).
Proof.
  intros H.
  assert (R : recognized (taskType options) = true) by now rewrite H.
  rewrite (taskSection_params options
             ([("text", str (prompt options));
               ("negativeText", str (negativePrompt options))]
              ++ spread (js_and (str (conditionImage options))
                   (VObj [("conditionImage", str (conditionImage options));
                          ("controlMode", str (controlMode options));
                          ("controlStrength", num (controlStrength options))])))
             R).
  - destruct (conditionImage options) as [image|]; unfold js_and; simpl truthy;
      [destruct (String.eqb_spec image "") as [-> | _]|]; simpl;
      destruct (prompt options), (negativePrompt options),
        (controlMode options), (controlStrength options); reflexivity.
  - unfold buildRequestBody. rewrite H. reflexivity.
Qed.

Lemma conditioning_needs_a_condition_image_witness :
  taskType (conditioned (Some "")) = "TEXT_IMAGE"
  /\ taskSection (conditioned (Some "")) = Some (JObj [("text", JStr "A cat")])
  /\ taskSection (conditioned (Some "Y29uZA=="))
     = Some (JObj [("text", JStr "A cat"); ("conditionImage", JStr "Y29uZA==");
                   ("controlMode", JStr "CANNY_EDGE");
                   ("controlStrength", JNum 1%float)]).
Proof.
  split; [reflexivity|].
  split.
  - apply (conditioning_needs_a_condition_image (conditioned (Some ""))).
    reflexivity.
  - apply (conditioning_needs_a_condition_image (conditioned (Some "Y29uZA=="))).
    reflexivity.
Defined.

(** X5: An outpainting section always has a mode: the caller's, or "DEFAULT"
    when none or an empty one is given.  No other section has one, whatever
    the caller gives. *)
Theorem outpainting_mode_defaults options :
  recognized (taskType options) = true ->
  exists params,
    taskSection options = Some (JObj params)
    /\ assoc "outPaintingMode" params =
         if String.eqb (taskType options) "OUTPAINTING"
         then Some (JStr (or_else (outPaintingMode options) "DEFAULT"))
         else None.
Proof.
  intros R.
  destruct (taskSection_recognized options R) as (params & E & S).
  exists (json_members params). split; [exact S|].
  unfold buildRequestBody in E.
  destruct (recognized_cases _ R) as [H | [H | [H | [H | H]]]];
    rewrite H in E; simpl in E; injection E as <-; rewrite H; simpl String.eqb;
    rewrite ?js_or_str.
  - destruct (conditionImage options) as [image|]; unfold js_and; simpl truthy;
      [destruct (String.eqb_spec image "") as [-> | _]|]; simpl;
      destruct (prompt options), (negativePrompt options),
        (controlMode options), (controlStrength options); reflexivity.
  - destruct (base64Image options), (maskImage options), (maskPrompt options),
      (prompt options), (negativePrompt options); reflexivity.
  - destruct (base64Image options), (maskImage options), (maskPrompt options),
      (prompt options), (negativePrompt options); reflexivity.
  - destruct (base64Image options); reflexivity.
  - destruct (prompt options), (negativePrompt options), (base64Image options),
      (colorHexList options); reflexivity.
Qed.

Lemma outpainting_mode_defaults_witness :
  recognized "OUTPAINTING" = true
  /\ (exists params,
        taskSection (request "OUTPAINTING") = Some (JObj params)
        /\ assoc "outPaintingMode" params = Some (JStr "DEFAULT"))
  /\ (exists params,
        taskSection (crowded "INPAINTING") = Some (JObj params)
        /\ assoc "outPaintingMode" params = None).
Proof.
  split; [reflexivity|].
  split.
  - apply (outpainting_mode_defaults (request "OUTPAINTING")). reflexivity.
  - apply (outpainting_mode_defaults (crowded "INPAINTING")). reflexivity.
Defined.

(** X6: The background-removal section is the image alone, and is empty when no
    image is given: prompt, masks, colours and the rest of the input never
    reach it, and a missing image is not refused. *)
Theorem background_removal_sends_the_image_only options :
  taskType options = "BACKGROUND_REMOVAL" ->
  taskSection options =
    Some (JObj (opt_member "image" (option_map JStr (base64Image options)))).
Proof.
  intros H.
  assert (R : recognized (taskType options) = true) by now rewrite H.
  rewrite (taskSection_params options [("image", str (base64Image options))] R).
  - destruct (base64Image options); reflexivity.
  - unfold buildRequestBody. rewrite H. reflexivity.
Qed.

Lemma background_removal_sends_the_image_only_witness :
  taskType (crowded "BACKGROUND_REMOVAL") = "BACKGROUND_REMOVAL"
  /\ taskSection (crowded "BACKGROUND_REMOVAL")
     = Some (JObj [("image", JStr "aW1hZ2U=")])
  /\ taskSection (request "BACKGROUND_REMOVAL") = Some (JObj []).
Proof.
  split; [reflexivity|].
  split.
  - apply (background_removal_sends_the_image_only (crowded "BACKGROUND_REMOVAL")).
    reflexivity.
  - apply (background_removal_sends_the_image_only (request "BACKGROUND_REMOVAL")).
    reflexivity.
Defined.

(** X7: The colour-guided section has the prompt, the negative prompt, the
    reference image and the colours, each when given and in that order; the
    colours are written as an array in the caller's order, an empty list as
    an empty array. *)
Theorem color_guided_section options :
  taskType options = "COLOR_GUIDED_GENERATION" ->
  taskSection options =
    Some (JObj (opt_member "text" (option_map JStr (prompt options))
                ++ opt_member "negativeText"
                     (option_map JStr (negativePrompt options))
                ++ opt_member "referenceImage"
                     (option_map JStr (base64Image options))
                ++ opt_member "colors"
                     (option_map (fun l => JArr (map JStr l))
                        (colorHexList options)))).
Proof.
  intros H.
  assert (R : recognized (taskType options) = true) by now rewrite H.
  rewrite (taskSection_params options
             [("text", str (prompt options));
              ("negativeText", str (negativePrompt options));
              ("referenceImage", str (base64Image options));
              ("colors", of_opt (fun l => VArr (map VStr l)) (colorHexList options))]
             R).
  - rewrite !json_members_opt_str, json_members_cons.
    destruct (colorHexList options) as [l|]; cbn [of_opt option_map opt_member].
    + now rewrite JSON_stringify_strings.
    + reflexivity.
  - unfold buildRequestBody. rewrite H. reflexivity.
Qed.

Lemma color_guided_section_witness :
  taskType (crowded "COLOR_GUIDED_GENERATION") = "COLOR_GUIDED_GENERATION"
  /\ taskSection (crowded "COLOR_GUIDED_GENERATION")
     = Some (JObj [("text", JStr "A cat"); ("negativeText", JStr "dog");
                   ("referenceImage", JStr "aW1hZ2U=");
                   ("colors", JArr [JStr "#5e17eb"; JStr "#FF0000"])]).
Proof.
  split; [reflexivity|].
  apply (color_guided_section (crowded "COLOR_GUIDED_GENERATION")).
  reflexivity.
Defined.

(** ** More on the response *)

(** X8: When the client is there, a response without a body fails the call
    with the no-body error, seen through the [catch]; the parser is not
    consulted. *)
Theorem missing_body_fails host this options w client :
  requestClient host this options = Return client ->
  remote_answer host client options = Return {| response_body := None |} ->
  fst (generateImage host this options w)
  = Throw (TError "Image generation failed: No response body received from model").
Proof.
  intros C A.
  now rewrite (generateImage_answered _ _ _ w _ _ C A).
Qed.

Lemma missing_body_fails_witness :
  let host := stub_host (Return {| response_body := None |})
                        (Return (VObj [("images", VArr [VStr "QUJD"])])) in
  let client := {| config_region := "us-east-1" |} in
  requestClient host default_this (request "TEXT_IMAGE") = Return client
  /\ remote_answer host client (request "TEXT_IMAGE")
     = Return {| response_body := None |}
  /\ fst (generateImage host default_this (request "TEXT_IMAGE") [])
     = Throw (TError "Image generation failed: No response body received from model").
Proof.
  intros host client. split; [reflexivity|]. split; [reflexivity|].
  apply (missing_body_fails host default_this (request "TEXT_IMAGE") [] client);
    reflexivity.
Defined.

(** X9: When the client is there, a body that decodes to something that is
    neither an object nor [null] (a number, a string, a boolean, an array)
    fails the call with the no-image error; one that decodes to [null] fails
    it with the error of reading a property of [null].  Both pass through
    the [catch]. *)
Theorem response_that_is_no_object host this options w client body responseBody :
  requestClient host this options = Return client ->
  remote_answer host client options = Return {| response_body := Some body |} ->
  JSON_parse host (TextDecoder_decode host body) = Return responseBody ->
  match responseBody with
  | VObj _ => True
  | VNull | VUndefined =>
      exists message,
        get_named responseBody "error" = Throw (TError message)
        /\ fst (generateImage host this options w)
           = Throw (TError ("Image generation failed: " ++ message)%string)
  | _ =>
      fst (generateImage host this options w)
      = Throw (TError "Image generation failed: No image returned from model")
  end.
Proof.
  intros C A P.
  rewrite (generateImage_answered _ _ _ w _ _ C A).
  rewrite (decodeResponse_parsed _ _ _ _ P).
  destruct responseBody; simpl; try reflexivity; try exact I;
    eexists; split; reflexivity.
Qed.

Lemma response_that_is_no_object_witness :
  let client := {| config_region := "us-east-1" |} in
  (let host := images_host (VArr [VStr "QUJD"]) in
   requestClient host default_this (request "TEXT_IMAGE") = Return client
   /\ remote_answer host client (request "TEXT_IMAGE")
      = Return {| response_body := Some [] |}
   /\ fst (generateImage host default_this (request "TEXT_IMAGE") [])
      = Throw (TError "Image generation failed: No image returned from model"))
  /\ (let host := images_host VNull in
      exists message,
        get_named VNull "error" = Throw (TError message)
        /\ fst (generateImage host default_this (request "TEXT_IMAGE") [])
           = Throw (TError ("Image generation failed: " ++ message)%string)).
Proof.
  intros client. split; intros host.
  - split; [reflexivity|]. split; [reflexivity|].
    apply (response_that_is_no_object host default_this (request "TEXT_IMAGE")
             [] client [] (VArr [VStr "QUJD"])); reflexivity.
  - apply (response_that_is_no_object host default_this (request "TEXT_IMAGE")
             [] client [] VNull); reflexivity.
Defined.

(** X10: What a call returns hangs together: the task kind was one of the five,
    the base64 field is truthy, the bytes are what [Buffer] makes of that
    field, and the model identifier is the request's.  There is no partial
    result. *)
Theorem a_result_is_whole host this options w r :
  fst (generateImage host this options w) = Return r ->
  recognized (taskType options) = true
  /\ truthy (ImageGenerationResult.base64Image r) = true
  /\ Buffer_from_base64 host (ImageGenerationResult.base64Image r)
     = Return (ImageGenerationResult.imageBytes r)
  /\ ImageGenerationResult.modelId r = requestModelId options.
Proof.
  rewrite generateImage_run.
  destruct (requestClient host this options) as [client | t]; [|discriminate].
  destruct (recognized (taskType options)) eqn:R.
  - destruct (buildRequestBody_recognized options R) as [params E].
    rewrite E; simpl.
    destruct (remote host _ _) as [response | t]; simpl;
      [|destruct (message_of host t); discriminate].
    unfold decodeResponse.
    destruct (response_body response) as [body|]; simpl; [|discriminate].
    destruct (JSON_parse host _) as [responseBody | t]; simpl;
      [|destruct (message_of host t); discriminate].
    destruct (get_named responseBody "error") as [error | t]; simpl;
      [|destruct (message_of host t); discriminate].
    destruct (truthy error); simpl;
      [destruct (ToString host error) as [text | t]; simpl;
       [discriminate | destruct (message_of host t); discriminate]|].
    destruct (get_named responseBody "images") as [images | t]; simpl;
      [|destruct (message_of host t); discriminate].
    destruct (truthy images); simpl; [|discriminate].
    destruct (get_index images 0) as [first | t]; simpl;
      [|destruct (message_of host t); discriminate].
    destruct (truthy first) eqn:T; simpl; [|discriminate].
    destruct (Buffer_from_base64 host first) as [bytes | t] eqn:B; simpl;
      [|destruct (message_of host t); discriminate].
    intros [= <-]; simpl. repeat split; assumption.
  - rewrite (buildRequestBody_unrecognized options R). discriminate.
Qed.

Lemma a_result_is_whole_witness :
  let host := images_host (VObj [("images", VStr "QUJD")]) in
  let r := {| ImageGenerationResult.imageBytes := [];
              ImageGenerationResult.base64Image := VStr "Q";
              ImageGenerationResult.modelId := "amazon.titan-image-generator-v2:0" |} in
  fst (generateImage host default_this (crowded "OUTPAINTING") []) = Return r
  /\ recognized "OUTPAINTING" = true
  /\ truthy (VStr "Q") = true
  /\ Buffer_from_base64 host (VStr "Q") = Return []
  /\ "amazon.titan-image-generator-v2:0" = requestModelId (crowded "OUTPAINTING").
Proof.
  intros host r. split; [reflexivity|].
  apply (a_result_is_whole host default_this (crowded "OUTPAINTING") [] r).
  reflexivity.
Defined.

(** ** More on base64 *)

Lemma decode_after_encode (bs : list byte) (rest : string) :
  base64_decode (base64_encode bs ++ rest) =
    bs ++ (if Nat.eqb (Nat.modulo (length bs) 3) 0 then base64_decode rest else []).
Proof.
  unfold base64_decode.
  induction bs as [| x | x y | x y z bs IH] using list_ind3.
  - reflexivity.
  - destruct (sextets_in_range x x) as (R0 & R1 & _).
    cbn [base64_encode String.append].
    rewrite !base64_char_read by assumption.
    cbn [sextets bytes_of_sextets Ascii.eqb Bool.eqb].
    now rewrite (proj2 (first_byte_back x x)).
  - destruct (sextets_in_range x y) as (R0 & _ & R1 & _).
    destruct (sextets_in_range y y) as (_ & _ & _ & R2 & _).
    cbn [base64_encode String.append].
    rewrite !base64_char_read by assumption.
    cbn [sextets bytes_of_sextets Ascii.eqb Bool.eqb].
    now rewrite (proj1 (first_byte_back x y)), (proj2 (second_byte_back x y y)).
  - destruct (sextets_in_range x y) as (R0 & _ & R1 & _).
    destruct (sextets_in_range y z) as (_ & _ & _ & _ & R2 & _).
    destruct (sextets_in_range z z) as (_ & _ & _ & _ & _ & R3).
    cbn [base64_encode encode_group3 String.append].
    rewrite !base64_char_read by assumption.
    cbn [bytes_of_sextets].
    rewrite (proj1 (first_byte_back x y)), (proj1 (second_byte_back x y z)),
      (third_byte_back y z), IH.
    change (length (x :: y :: z :: bs)) with (3 + length bs)%nat.
    replace (Nat.modulo (3 + length bs) 3) with (Nat.modulo (length bs) 3).
    + reflexivity.
    + rewrite Nat.add_comm.
      symmetry. apply (Nat.Div0.mod_add (length bs) 1 3).
Qed.

Lemma base64_decode_encode (bs : list byte) :
  base64_decode (base64_encode bs) = bs.
Proof.
  pose proof (decode_after_encode bs "") as H.
  assert (E : (base64_encode bs ++ "")%string = base64_encode bs).
  { generalize (base64_encode bs). intros s.
    induction s as [|c s IH]; cbn [String.append]; [reflexivity | now rewrite IH]. }
  rewrite E in H. rewrite H.
  destruct (Nat.eqb _ _); cbn; apply app_nil_r.
Qed.

Lemma encode_app_group (x y z : byte) (cs : list byte) :
  base64_encode (x :: y :: z :: cs) =
    (encode_group3 (Byte.to_N x) (Byte.to_N y) (Byte.to_N z)
       ++ base64_encode cs)%string.
Proof. reflexivity. Qed.

Lemma append_assoc (a b c : string) :
  ((a ++ b) ++ c)%string = (a ++ (b ++ c))%string.
Proof.
  induction a as [|ch a IH]; cbn [String.append]; [reflexivity | now rewrite IH].
Qed.

(** X12: Bytes can be encoded in pieces: when the first piece has a multiple of
    three bytes, the encoding of two pieces is the two encodings one after
    the other, and decoding a text that starts with the encoding of such a
    piece gives the piece and then what the rest decodes to.  The encoding
    of any other piece ends in padding, and what follows it is ignored. *)
Theorem base64_works_in_groups_of_three (bs cs : list byte) (rest : string) :
  (Nat.modulo (length bs) 3 = 0 ->
   base64_encode (bs ++ cs) = (base64_encode bs ++ base64_encode cs)%string
   /\ base64_decode (base64_encode bs ++ rest) = bs ++ base64_decode rest)
  /\ (Nat.modulo (length bs) 3 <> 0 ->
      base64_decode (base64_encode bs ++ rest) = bs).
Proof.
  split; intros H; rewrite decode_after_encode.
  - rewrite H. split; [|reflexivity].
    clear rest. revert H.
    induction bs as [| x | x y | x y z bs IH] using list_ind3; intros H.
    + reflexivity.
    + discriminate H.
    + discriminate H.
    + change ((x :: y :: z :: bs) ++ cs) with (x :: y :: z :: (bs ++ cs)).
      rewrite !encode_app_group, append_assoc. f_equal. apply IH.
      change (length (x :: y :: z :: bs)) with (3 + length bs)%nat in H.
      assert (E : Nat.modulo (3 + length bs) 3 = Nat.modulo (length bs) 3)
        by (rewrite Nat.add_comm; apply (Nat.Div0.mod_add (length bs) 1 3)).
      now rewrite E in H.
  - apply Nat.eqb_neq in H. rewrite H. apply app_nil_r.
Qed.

(** X13: Different bytes have different encodings, and an encoding has four
    characters for every three bytes, the last group rounded up. *)
Theorem base64_encode_injective_and_sized (a b : list byte) :
  (base64_encode a = base64_encode b -> a = b)
  /\ String.length (base64_encode a) = (4 * Nat.div (length a + 2) 3)%nat.
Proof.
  split.
  - intros H. rewrite <- (base64_decode_encode a), H. apply base64_decode_encode.
  - clear b.
    induction a as [| x | x y | x y z a IH] using list_ind3; try reflexivity.
    cbn [base64_encode encode_group3 String.append String.length length].
    rewrite IH.
    replace (S (S (S (length a))) + 2)%nat with ((length a + 2) + 1 * 3)%nat by lia.
    rewrite Nat.div_add by lia. lia.
Qed.

(** ** The driver script *)

Lemma readImageAsBase64_keeps_the_machine platform filename s o s' :
  readImageAsBase64 platform filename s = (o, s') -> s' = s.
Proof.
  unfold readImageAsBase64, script_bind, script_lift, script_ret, readFileSync.
  destruct (path_join platform _) as [imagePath | t]; simpl.
  - destruct (assoc imagePath (written s)); simpl.
    + now intros [= _ <-].
    + destruct (found_on_disk platform imagePath); now intros [= _ <-].
  - now intros [= _ <-].
Qed.

(** X14: An image read by the script and written back by it is the same file:
    after [writeImageFromBase64] of what [readImageAsBase64] returned, the
    output path holds the bytes the image path held. *)
Theorem written_image_is_the_image_read
    host platform filename outputFilename s base64 s1 s2 :
  readImageAsBase64 platform (Some filename) s = (Return base64, s1) ->
  writeImageFromBase64 host platform (VStr base64) outputFilename s1
  = (Return tt, s2) ->
  exists imagePath outputPath data,
    path_join platform
      [Some (dirname platform); Some ".."; Some "images"; Some filename]
    = Return imagePath
    /\ path_join platform
         [Some (dirname platform); Some ".."; Some "results"; Some outputFilename]
       = Return outputPath
    /\ readFileSync platform imagePath s = (Return data, s)
    /\ readFileSync platform outputPath s2 = (Return data, s2).
Proof.
  intros Hread Hwrite.
  pose proof (readImageAsBase64_keeps_the_machine _ _ _ _ _ Hread) as ->.
  unfold readImageAsBase64, script_bind, script_lift, script_ret in Hread.
  destruct (path_join platform [_; _; Some "images"; _]) as [imagePath | t];
    [|discriminate].
  destruct (readFileSync platform imagePath s) as [[data | t] s'] eqn:R;
    [|discriminate].
  injection Hread as <- ->.
  unfold writeImageFromBase64, script_bind, script_lift, writeFileSync in Hwrite.
  destruct (path_join platform [_; _; Some "results"; _]) as [outputPath | t];
    [|discriminate].
  simpl in Hwrite.
  destruct (write_refused platform outputPath); [discriminate|].
  injection Hwrite as <-.
  exists imagePath, outputPath, data.
  repeat split; [exact R|].
  unfold readFileSync; simpl.
  now rewrite String.eqb_refl, base64_decode_encode.
Qed.

Lemma written_image_is_the_image_read_witness :
  let platform :=
    sample_platform [("scripts/../images/file-5.png", [x89; x50; x4e; x47])] in
  let host := images_host VNull in
  let s2 := {| net := [];
               written := [("scripts/../results/result-5.png",
                            [x89; x50; x4e; x47])];
               console := [] |} in
  readImageAsBase64 platform (Some "file-5.png") start = (Return "iVBORw==", start)
  /\ writeImageFromBase64 host platform (VStr "iVBORw==") "result-5.png" start
     = (Return tt, s2)
  /\ exists imagePath outputPath data,
       path_join platform
         [Some (dirname platform); Some ".."; Some "images"; Some "file-5.png"]
       = Return imagePath
       /\ path_join platform
            [Some (dirname platform); Some ".."; Some "results";
             Some "result-5.png"]
          = Return outputPath
       /\ readFileSync platform imagePath start = (Return data, start)
       /\ readFileSync platform outputPath s2 = (Return data, s2).
Proof.
  intros platform host s2.
  split; [reflexivity|]. split; [reflexivity|].
  apply (written_image_is_the_image_read host platform "file-5.png"
           "result-5.png" start "iVBORw==" start s2); reflexivity.
Defined.

(** What [prepareRequest] does when it returns: one line on the console,
    nothing else changed, and a request made of the images read. *)
Lemma prepareRequest_returns platform index task s options s' :
  prepareRequest platform index task s = (Return options, s') ->
  exists inputImage maskImage,
    options = taskRequest task inputImage maskImage
    /\ (maskImage <> None ->
        (String.eqb (Task.taskType task) "INPAINTING"
         || String.eqb (Task.taskType task) "OUTPAINTING")
        && negb (truthy (str (overriding_maskPrompt task))) = true)
    /\ net s' = net s /\ written s' = written s
    /\ length (console s') = S (length (console s)).
Proof.
  unfold prepareRequest, script_bind at 1, console_log.
  set (s0 := {| net := net s; written := written s; console := _ |}).
  assert (S0 : net s0 = net s /\ written s0 = written s
               /\ length (console s0) = S (length (console s))).
  { subst s0; simpl. rewrite length_app; simpl. repeat split; lia. }
  clearbody s0.
  unfold script_bind at 1.
  destruct (truthy (str (nth_error (Task.inputFiles task) 0))).
  - unfold script_bind at 1.
    destruct (readImageAsBase64 platform _ s0) as [[image | t] s1] eqn:R1;
      [|discriminate].
    apply readImageAsBase64_keeps_the_machine in R1 as ->.
    unfold script_ret at 1, script_bind at 1.
    destruct ((_ || _) && _) eqn:C.
    + unfold script_bind at 1.
      destruct (readImageAsBase64 platform _ s0) as [[mask | t] s1] eqn:R2;
        [|discriminate].
      apply readImageAsBase64_keeps_the_machine in R2 as ->.
      unfold script_ret. intros [= <- <-].
      exists (Some image), (Some mask). now repeat split.
    + unfold script_ret. intros [= <- <-].
      exists (Some image), None. repeat split; try apply S0. congruence.
  - unfold script_ret at 1, script_bind at 1.
    destruct ((_ || _) && _) eqn:C.
    + unfold script_bind at 1.
      destruct (readImageAsBase64 platform _ s0) as [[mask | t] s1] eqn:R2;
        [|discriminate].
      apply readImageAsBase64_keeps_the_machine in R2 as ->.
      unfold script_ret. intros [= <- <-].
      exists None, (Some mask). now repeat split.
    + unfold script_ret. intros [= <- <-].
      exists None, None. repeat split; try apply S0. congruence.
Qed.

(** X15: Unless the overrides of a task bring a mask image of their own, the
    request the script makes has a mask image only for an inpainting or
    outpainting task, and then has no mask prompt or an empty one. *)
Theorem script_reads_a_mask_only_without_a_prompt
    platform index task s options s' :
  prepareRequest platform index task s = (Return options, s') ->
  (forall overrides, Task.configOverrides task = Some overrides ->
                     Overrides.maskImage overrides = None) ->
  maskImage options <> None ->
  truthy (str (maskPrompt options)) = false
  /\ (Task.taskType task = "INPAINTING" \/ Task.taskType task = "OUTPAINTING").
Proof.
  intros P O N.
  destruct (prepareRequest_returns _ _ _ _ _ _ P)
    as (inputImage & maskImage & -> & C & _).
  assert (M : maskImage <> None /\
              maskPrompt (taskRequest task inputImage maskImage)
              = overriding_maskPrompt task).
  { unfold taskRequest, overriding_maskPrompt in *.
    destruct (Task.configOverrides task) as [overrides|]; simpl in *.
    - rewrite (O overrides eq_refl) in N. simpl in N. now split.
    - now split. }
  destruct M as [M ->].
  apply C in M. apply andb_prop in M as [T F].
  apply negb_true_iff in F. split; [exact F|].
  apply orb_prop in T. destruct T as [T | T]; apply String.eqb_eq in T; auto.
Qed.

Lemma script_reads_a_mask_only_without_a_prompt_witness :
  let platform := sample_platform sample_files in
  let task := nth 2 tasks nothing_to_do in
  let options := taskRequest task (Some "QUJDRA==") (Some "QUJDRA==") in
  let s' := {| net := []; written := [];
               console := [Log "Running task 3: INPAINTING"] |} in
  prepareRequest platform 2 task start = (Return options, s')
  /\ maskImage options = Some "QUJDRA=="
  /\ truthy (str (maskPrompt options)) = false
  /\ (Task.taskType task = "INPAINTING" \/ Task.taskType task = "OUTPAINTING").
Proof.
  intros platform task options s'.
  split; [reflexivity|]. split; [reflexivity|].
  apply (script_reads_a_mask_only_without_a_prompt platform 2 task start
           options s').
  - reflexivity.
  - intros overrides [= <-]. reflexivity.
  - discriminate.
Defined.

(** X16: An image configuration among the overrides of a task replaces the
    512 by 512, premium one of the script as a whole: what it leaves out is
    filled in by the method, not by the script, so a width it does not give
    is sent as 1024.  Without such an override the width sent is 512. *)
Theorem overriding_image_config_replaces_the_scripts task inputImage maskImage :
  let options := taskRequest task inputImage maskImage in
  recognized (taskType options) = true ->
  exists block,
    generationConfig options = Some (JObj block)
    /\ assoc "width" block =
         match Task.configOverrides task with
         | Some overrides =>
             match Overrides.imageConfig overrides with
             | Some given =>
                 match width (with_default emptyImageConfig given) with
                 | Some w =>
                     if truthy (VNum w) then Some (json_of_number w) else None
                 | None => Some (JNum 1024%float)
                 end
             | None => Some (JNum 512%float)
             end
         | None => Some (JNum 512%float)
         end.
Proof.
  intros options R.
  eexists. split; [apply (generationConfig_recognized options R)|].
  rewrite imageGenerationConfig_members.
  assert (E : imageConfig options =
              match Task.configOverrides task with
              | Some overrides =>
                  with_default
                    (Some {| width := Some 512%float; height := Some 512%float;
                             quality := Some "premium"; cfgScale := None;
                             seed := None; numberOfImages := None |})
                    (Overrides.imageConfig overrides)
              | None =>
                  Some {| width := Some 512%float; height := Some 512%float;
                          quality := Some "premium"; cfgScale := None;
                          seed := None; numberOfImages := None |}
              end).
  { unfold options, taskRequest.
    destruct (Task.configOverrides task); reflexivity. }
  rewrite E. clear E.
  assert (L : forall c : ImageConfig,
             assoc "width"
               ([("numberOfImages",
                  json_of_number (with_default 1%float (numberOfImages c)));
                 ("quality", JStr (with_default "premium" (quality c)));
                 ("cfgScale", json_of_number (with_default 8%float (cfgScale c)))]
                ++ match seed c with
                   | Some s => [("seed", json_of_number s)]
                   | None => []
                   end
                ++ (if truthy (VNum (with_default 1024%float (width c)))
                    then [("width",
                           json_of_number (with_default 1024%float (width c)))]
                    else [])
                ++ (if truthy (VNum (with_default 1024%float (height c)))
                    then [("height",
                           json_of_number (with_default 1024%float (height c)))]
                    else []))
             = if truthy (VNum (with_default 1024%float (width c)))
               then Some (json_of_number (with_default 1024%float (width c)))
               else None).
  { intros c. destruct (seed c); destruct (truthy _); destruct (truthy _);
      reflexivity. }
  destruct (Task.configOverrides task) as [overrides|]; [|apply L].
  destruct (Overrides.imageConfig overrides) as [given|]; [|apply L].
  cbn [with_default]. rewrite L.
  destruct (width (with_default emptyImageConfig given)); reflexivity.
Qed.

Lemma overriding_image_config_replaces_the_scripts_witness :
  let options := taskRequest (nth 5 tasks nothing_to_do) (Some "QUJDRA==") None in
  recognized (taskType options) = true
  /\ exists block,
       generationConfig options = Some (JObj block)
       /\ assoc "width" block = Some (JNum 1024%float).
Proof.
  intros options. split; [reflexivity|].
  apply (overriding_image_config_replaces_the_scripts
           (nth 5 tasks nothing_to_do) (Some "QUJDRA==") None).
  reflexivity.
Defined.

(** ** The loop of the script *)

Lemma runTasks_app host platform this index before after s :
  runTasks host platform this index (before ++ after) s =
    match runTasks host platform this index before s with
    | (Return _, s1) =>
        runTasks host platform this (index + length before) after s1
    | (Throw t, s1) => (Throw t, s1)
    end.
Proof.
  revert index s.
  induction before as [|task before IH]; intros index s; simpl.
  - now rewrite Nat.add_0_r.
  - unfold script_bind.
    destruct (runTask host platform this index task s) as [[[] | t] s1];
      [|reflexivity].
    rewrite IH. now rewrite Nat.add_succ_r.
Qed.

(** X17: A task that fails ends the run: the tasks after it are not started, the
    line that reports completion is not written, the error is written to
    the console, and the script ends without an error of its own. *)
Theorem a_failing_task_ends_the_run
    host platform before task after s s0 s1 s2 this t :
  tasks = before ++ task :: after ->
  on_net (new_BedrockImageManipulation host None) s = (Return this, s0) ->
  runTasks host platform this 0 before s0 = (Return tt, s1) ->
  runTask host platform this (length before) task s1 = (Throw t, s2) ->
  main host platform s =
    (Return tt,
     {| net := net s2; written := written s2;
        console := console s2 ++ [LogError "Failed to generate image:" t] |}).
Proof.
  intros T C B F.
  unfold main, script_catch, run, script_bind at 1.
  rewrite C. unfold script_bind at 1.
  rewrite T, runTasks_app, B. simpl.
  unfold script_bind at 1. rewrite F. reflexivity.
Qed.

Lemma a_failing_task_ends_the_run_witness :
  let host := images_host (VObj [("images", VArr [VStr "UVJT"])]) in
  let platform := sample_platform (tl sample_files) in
  let first := nth 0 tasks nothing_to_do in
  let second := nth 1 tasks nothing_to_do in
  let s0 := {| net := [NewClient "us-east-1"]; written := []; console := [] |} in
  let s1 := snd (runTasks host platform default_this 0 [first] s0) in
  let s2 := snd (runTask host platform default_this 1 second s1) in
  let t := TError "ENOENT: no such file or directory" in
  runTask host platform default_this 1 second s1 = (Throw t, s2)
  /\ main host platform start =
       (Return tt,
        {| net := net s2; written := written s2;
           console := console s2 ++ [LogError "Failed to generate image:" t] |})
  /\ console s2 = [Log "Running task 1: TEXT_IMAGE";
                   Log "Running task 2: INPAINTING"]
  /\ length (sent_commands (net s2)) = 1.
Proof.
  intros host platform first second s0 s1 s2 t.
  split; [reflexivity|].
  split; [|split; reflexivity].
  apply (a_failing_task_ends_the_run host platform [first] second
           (skipn 2 tasks) start s0 s1 s2 default_this t);
    reflexivity.
Defined.

Lemma generateImage_returns_after_one_command host this options w r w' :
  generateImage host this options w = (Return r, w') ->
  length (sent_commands w') = S (length (sent_commands w)).
Proof.
  intros H.
  destruct (requestClient host this options) as [client | t] eqn:C.
  - destruct (recognized (taskType options)) eqn:R.
    + pose proof (generateImage_sends_payload host this options w _ C R) as E.
      rewrite H in E; simpl in E. rewrite E, length_app; simpl. lia.
    + rewrite (generateImage_unrecognized host this options w _ C R) in H.
      discriminate.
  - rewrite (generateImage_no_client host this options w _ C) in H.
    discriminate.
Qed.

Lemma runTask_returns host platform this index task s s' :
  runTask host platform this index task s = (Return tt, s') ->
  length (sent_commands (net s')) = S (length (sent_commands (net s)))
  /\ length (written s') = S (length (written s))
  /\ length (console s') = S (length (console s)).
Proof.
  unfold runTask, script_bind at 1.
  destruct (prepareRequest platform index task s) as [[options | t] s1] eqn:P;
    [|discriminate].
  destruct (prepareRequest_returns _ _ _ _ _ _ P)
    as (_ & _ & _ & _ & N1 & W1 & C1).
  unfold script_bind at 1, on_net.
  destruct (generateImage host this options (net s1)) as [[r | t] w] eqn:G;
    [|discriminate].
  apply generateImage_returns_after_one_command in G.
  unfold writeImageFromBase64, script_bind, script_lift, writeFileSync; simpl.
  destruct (path_join platform _) as [outputPath | t]; [|discriminate].
  destruct (Buffer_from_base64 host _) as [buffer | t]; [|discriminate].
  destruct (write_refused platform outputPath); [discriminate|].
  intros [= <-]; simpl.
  rewrite G, N1, W1, C1. now repeat split.
Qed.

(** X18: A run of the loop that returns has sent one command, written one file
    and put one line on the console for every task: no task is skipped and
    none is tried twice. *)
Theorem a_run_that_returns_did_every_task
    host platform this index todo s s' :
  runTasks host platform this index todo s = (Return tt, s') ->
  length (sent_commands (net s')) = length (sent_commands (net s)) + length todo
  /\ length (written s') = length (written s) + length todo
  /\ length (console s') = length (console s) + length todo.
Proof.
  revert index s.
  induction todo as [|task todo IH]; intros index s; simpl.
  - unfold script_ret. intros [= <-]. lia.
  - unfold script_bind at 1.
    destruct (runTask host platform this index task s) as [[[] | t] s1] eqn:T;
      [|discriminate].
    intros H. apply IH in H.
    apply runTask_returns in T. lia.
Qed.

Lemma a_run_that_returns_did_every_task_witness :
  let host := images_host (VObj [("images", VArr [VStr "UVJT"])]) in
  let platform := sample_platform sample_files in
  let last_two := skipn 4 tasks in
  let s' := snd (runTasks host platform default_this 4 last_two start) in
  runTasks host platform default_this 4 last_two start = (Return tt, s')
  /\ length (sent_commands (net s')) = 2
  /\ length (written s') = 2
  /\ length (console s') = 2.
Proof.
  intros host platform last_two s'.
  split; [vm_compute; reflexivity|].
  apply (a_run_that_returns_did_every_task host platform default_this 4 last_two
           start s').
  vm_compute; reflexivity.
Defined.

Lemma prepareRequest_keeps_net_and_files platform index task s o s' :
  prepareRequest platform index task s = (o, s') ->
  net s' = net s /\ written s' = written s.
Proof.
  unfold prepareRequest, script_bind at 1, console_log.
  set (s0 := {| net := net s; written := written s; console := _ |}).
  assert (S0 : net s0 = net s /\ written s0 = written s)
    by (subst s0; now split).
  clearbody s0.
  unfold script_bind at 1.
  destruct (truthy (str (nth_error (Task.inputFiles task) 0))).
  - unfold script_bind at 1.
    destruct (readImageAsBase64 platform _ s0) as [[image | t] s1] eqn:R1;
      apply readImageAsBase64_keeps_the_machine in R1 as ->;
      [|now intros [= <- <-]].
    unfold script_ret at 1, script_bind at 1.
    destruct ((_ || _) && _); [|now intros [= <- <-]].
    unfold script_bind at 1.
    destruct (readImageAsBase64 platform _ s0) as [[mask | t] s1] eqn:R2;
      apply readImageAsBase64_keeps_the_machine in R2 as ->;
      now intros [= <- <-].
  - unfold script_ret at 1, script_bind at 1.
    destruct ((_ || _) && _); [|now intros [= <- <-]].
    unfold script_bind at 1.
    destruct (readImageAsBase64 platform _ s0) as [[mask | t] s1] eqn:R2;
      apply readImageAsBase64_keeps_the_machine in R2 as ->;
      now intros [= <- <-].
Qed.

(** X19: A task whose images cannot be read fails before anything is sent: the
    error of the read is the error of the task, no client is constructed,
    no command goes out and no file is written. *)
Theorem an_unreadable_image_sends_nothing host platform this index task s t :
  fst (prepareRequest platform index task s) = Throw t ->
  fst (runTask host platform this index task s) = Throw t
  /\ net (snd (runTask host platform this index task s)) = net s
  /\ written (snd (runTask host platform this index task s)) = written s.
Proof.
  intros H.
  unfold runTask, script_bind.
  destruct (prepareRequest platform index task s) as [[options | t'] s1] eqn:P;
    simpl in H; [discriminate|].
  injection H as ->.
  destruct (prepareRequest_keeps_net_and_files _ _ _ _ _ _ P) as [N W].
  simpl. now repeat split.
Qed.

Lemma an_unreadable_image_sends_nothing_witness :
  let host := images_host (VObj [("images", VArr [VStr "UVJT"])]) in
  let platform := sample_platform [] in
  let task := nth 4 tasks nothing_to_do in
  let t := TError "ENOENT: no such file or directory" in
  fst (prepareRequest platform 4 task start) = Throw t
  /\ fst (runTask host platform default_this 4 task start) = Throw t
  /\ net (snd (runTask host platform default_this 4 task start)) = []
  /\ written (snd (runTask host platform default_this 4 task start)) = [].
Proof.
  intros host platform task t.
  split; [reflexivity|].
  apply (an_unreadable_image_sends_nothing host platform default_this 4 task
           start t).
  reflexivity.
Defined.
